(** * Train_Transformer: a shallow embedding of [model.py] and [train.py]

    The development models the encoder-decoder Transformer of [model.py]
    and the greedy decoding loop of [train.py].

    Conventions.
    - Python integers are [Z]; tensor dimensions and indices are [nat].
    - Tensor entries are idealised real numbers ([R]); rounding, overflow
      and NaN of IEEE arithmetic are outside the model.  Division is the
      total division of [R].
    - A tensor of rank [n] is an [n]-fold nested list; a list with an
      empty dimension keeps no record of the dimensions behind it.  The
      methods of the modules raise where torch rejects the shapes of their
      arguments; the tensor operations under them ([dot], [matmul], the
      static [attention]) are the computations on well-shaped arguments.
    - A Python call either returns a value or raises: [result].
    - Randomness (dropout masks, initial weights) is an explicit argument.
    - The [print] calls of [LayerNormalization.forward] write to standard
      output only and are left out. *)

From Stdlib Require Import Reals Lra Lia ZArith List String.
From stdpp Require Import base option list gmap strings.
Import ListNotations.

Local Open Scope string_scope.
Local Open Scope list_scope.

(** ** Exceptions and the error monad *)

Inductive exn :=
| TypeError (msg : string)
| AttributeError (attr : string)
| AssertionError (msg : string)
| ValueError (msg : string)
| RuntimeError (msg : string)
| IndexError (msg : string)
| ZeroDivisionError.

Inductive result (A : Type) :=
| Ok (a : A)
| Raise (e : exn).
Arguments Ok {A} a.
Arguments Raise {A} e.

#[global] Instance result_ret : MRet result := fun A a => Ok a.
#[global] Instance result_bind : MBind result := fun A B f m =>
  match m with
  | Ok a => f a
  | Raise e => Raise e
  end.

Definition raises {A} (r : result A) : Prop := exists e, r = Raise e.

(** ** Tensors *)

Abbreviation vec := (list R).
Abbreviation mat := (list (list R)).
Abbreviation tensor3 := (list (list (list R))).
Abbreviation tensor4 := (list (list (list (list R)))).
Abbreviation mask4 := (list (list (list (list Z)))).

(** [t.shape[-1]] of a matrix, and [t.shape[1]] / [t.shape[-1]] of
    higher-rank tensors, read off the first element. *)
Definition ncols (m : mat) : nat :=
  match m with
  | r :: _ => length r
  | [] => 0
  end.

Definition shape1 (x : tensor3) : nat :=
  match x with
  | b :: _ => length b
  | [] => 0
  end.

Definition shape_last4 (x : tensor4) : nat :=
  match x with
  | (m :: _) :: _ => ncols m
  | _ => 0
  end.

Definition sum_list (v : vec) : R := foldr Rplus 0%R v.

Definition dot (u v : vec) : R := sum_list (zip_with Rmult u v).

Definition column (j : nat) (m : mat) : vec := (fun r => nth j r 0%R) <$> m.

(** [m.transpose(-2,-1)] *)
Definition transpose (m : mat) : mat := (fun j => column j m) <$> seq 0 (ncols m).

(** [a @ b] on the last two dimensions *)
Definition matmul (a b : mat) : mat :=
  (fun row => (fun j => dot row (column j b)) <$> seq 0 (ncols b)) <$> a.

(** [softmax(dim=-1)] of one row *)
Definition softmax_row (v : vec) : vec :=
  let e := exp <$> v in
  (fun x => (x / sum_list e)%R) <$> e.

(** A dimension of size one broadcasts. *)
Definition bnth {A} (d : A) (l : list A) (i : nat) : A :=
  match l with
  | [x] => x
  | _ => nth i l d
  end.

(** [mask == 0], read at index [(b,h,i,j)] with broadcasting *)
Definition mask_eq0 (mask : mask4) (b h i j : nat) : bool :=
  (bnth 1%Z (bnth [] (bnth [] (bnth [] mask b) h) i) j =? 0)%Z.

(** [t.masked_fill(cond, value)]: the out-of-place variant, it returns a
    new tensor and leaves [t] as it is. *)
Definition masked_fill (t : tensor4) (cond : nat -> nat -> nat -> nat -> bool)
    (value : R) : tensor4 :=
  imap (fun b tb =>
    imap (fun h th =>
      imap (fun i ti =>
        imap (fun j x => if cond b h i j then value else x) ti) th) tb) t.

(** ** nn.Dropout *)

Module Dropout.

Record t := { p : R; training : bool }.

Definition init (prob : R) : result t :=
  if Rlt_dec prob 0 then Raise (ValueError "dropout probability has to be between 0 and 1")
  else if Rlt_dec 1 prob then Raise (ValueError "dropout probability has to be between 0 and 1")
  else Ok {| p := prob; training := true |}.

(** One entry in training mode; [keep] is the Bernoulli draw. *)
Definition entry (self : t) (keep : bool) (x : R) : R :=
  if Req_dec_T (p self) 1 then 0%R
  else if keep then (x / (1 - p self))%R else 0%R.

Definition forward3 (self : t) (keep : nat -> nat -> nat -> bool) (x : tensor3) : tensor3 :=
  if training self then
    imap (fun b xb => imap (fun i xi => imap (fun j v => entry self (keep b i j) v) xi) xb) x
  else x.

Definition forward4 (self : t) (keep : nat -> nat -> nat -> nat -> bool) (x : tensor4) : tensor4 :=
  if training self then
    imap (fun b xb => imap (fun h xh =>
      imap (fun i xi => imap (fun j v => entry self (keep b h i j) v) xi) xh) xb) x
  else x.

End Dropout.

(** ** nn.Linear *)

Module Linear.

Record t := { in_features : Z; out_features : Z; weight : mat; bias : vec }.

(** The initial weights are drawn at random by torch; they are given. *)
Definition init (in_features out_features : Z) (w : mat) (b : vec) : result t :=
  if ((in_features <? 0) || (out_features <? 0))%Z
  then Raise (RuntimeError "Trying to create tensor with negative dimension")
  else Ok {| in_features := in_features; out_features := out_features;
             weight := w; bias := b |}.

Definition apply (self : t) (x : vec) : vec :=
  zip_with Rplus ((fun w => dot x w) <$> weight self) (bias self).

(** The shapes torch checks in [F.linear]: the token has [in_features]
    entries, as many as every row of the weight, and the bias has one
    entry per row of the weight. *)
Definition accepts (self : t) (tok : vec) : Prop :=
  Z.of_nat (length tok) = in_features self /\
  Forall (fun w : vec => length w = length tok) (weight self) /\
  length (bias self) = length (weight self).

#[global] Instance accepts_dec (self : t) (tok : vec) : Decision (accepts self tok).
Proof. unfold accepts. apply _. Defined.

(** A token of another width is rejected. *)
Definition forward (self : t) (x : tensor3) : result tensor3 :=
  if decide (Forall (Forall (accepts self)) x)
  then Ok ((fun xb : mat => apply self <$> xb) <$> x)
  else Raise (RuntimeError "mat1 and mat2 shapes cannot be multiplied").

End Linear.

(** ** MultiHeadAttentionBlock *)

Module MultiHeadAttentionBlock.

Record t := {
  d_model : Z;
  h : Z;
  d_k : Z;
  w_k : Linear.t;
  w_q : Linear.t;
  w_v : Linear.t;
  w_o : Linear.t;
  dropout : Dropout.t;
  (** absent until the first [forward] *)
  attention_scores : option tensor4
}.

(** The four random initial weight matrices and biases *)
Record init_weights := {
  k0 : mat * vec; q0 : mat * vec; v0 : mat * vec; o0 : mat * vec
}.

Definition init (d_model h : Z) (dropout : R) (w : init_weights) : result t :=
  if (h =? 0)%Z then Raise ZeroDivisionError
  else if negb (d_model mod h =? 0)%Z
  then Raise (AssertionError "d_model is not divisible by h")
  else
    let d_k := (d_model / h)%Z in
    w_k ← Linear.init d_model d_model (k0 w).1 (k0 w).2;
    w_q ← Linear.init d_model d_model (q0 w).1 (q0 w).2;
    w_v ← Linear.init d_model d_model (v0 w).1 (v0 w).2;
    w_o ← Linear.init d_model d_model (o0 w).1 (o0 w).2;
    dropout ← Dropout.init dropout;
    Ok {| d_model := d_model; h := h; d_k := d_k;
          w_k := w_k; w_q := w_q; w_v := w_v; w_o := w_o;
          dropout := dropout; attention_scores := None |}.

(** The static method.  [dropout] is the callable passed in, or [None]. *)
Definition attention (query key value : tensor4) (mask : option mask4)
    (dropout : option (tensor4 -> tensor4)) : tensor4 * tensor4 :=
  let d_k := shape_last4 query in
  let attention_scores :=
    zip_with (zip_with (fun q k =>
      (fun row : vec => (fun s => (s / sqrt (INR d_k))%R) <$> row) <$> matmul q (transpose k)))
      query key in
  (* line 112: an expression statement, its value is dropped *)
  let _ :=
    match mask with
    | Some m => Some (masked_fill attention_scores (mask_eq0 m) (-1000000000)%R)
    | None => None
    end in
  let attention_scores := (fun sb : tensor3 => (fun sh : mat => softmax_row <$> sh) <$> sb) <$> attention_scores in
  let attention_scores :=
    match dropout with
    | Some d => d attention_scores
    | None => attention_scores
    end in
  (zip_with (zip_with matmul) attention_scores value, attention_scores).

(** The routine as it is specified, for comparison: the tensor returned
    by [masked_fill] replaces the scores before the softmax. *)
Definition attention_masked (query key value : tensor4) (mask : option mask4)
    (dropout : option (tensor4 -> tensor4)) : tensor4 * tensor4 :=
  let d_k := shape_last4 query in
  let attention_scores :=
    zip_with (zip_with (fun q k =>
      (fun row : vec => (fun s => (s / sqrt (INR d_k))%R) <$> row) <$> matmul q (transpose k)))
      query key in
  let attention_scores :=
    match mask with
    | Some m => masked_fill attention_scores (mask_eq0 m) (-1000000000)%R
    | None => attention_scores
    end in
  let attention_scores := (fun sb : tensor3 => (fun sh : mat => softmax_row <$> sh) <$> sb) <$> attention_scores in
  let attention_scores :=
    match dropout with
    | Some d => d attention_scores
    | None => attention_scores
    end in
  (zip_with (zip_with matmul) attention_scores value, attention_scores).

(** [x.view(B, S, h, d_k).transpose(1,2)] *)
Definition split_heads (h d_k : nat) (x : tensor3) : tensor4 :=
  (fun xb : mat => (fun j => (fun tok : vec => take d_k (drop (j * d_k) tok)) <$> xb) <$> seq 0 h) <$> x.

(** [x.transpose(1,2).contiguous().view(B, -1, h * d_k)] *)
Definition merge_heads (x : tensor4) : tensor3 :=
  (fun xb : tensor3 =>
     (fun s => concat ((fun xh : mat => nth s xh []) <$> xb))
       <$> seq 0 (match xb with xh :: _ => length xh | [] => 0 end)) <$> x.

(** The shapes torch checks in the routine: query and key agree in batch
    size, head count and width, key and value in batch size, head count
    and length, and the mask broadcasts with the scores.  (Broadcasting
    of a batch of size one against a larger one is not modelled.) *)
Definition broadcasts (m n : nat) : Prop := m = n \/ m = 1 \/ n = 1.

Definition widths_agree (qh kh : mat) : Prop :=
  Forall (fun rq : vec => Forall (fun rk : vec => length rq = length rk) kh) qh.

Definition mask_broadcasts (m : mask4) (query key : tensor4) : Prop :=
  let B := length query in
  let H := match query with qb :: _ => length qb | [] => 0 end in
  let Sq := match query with (qh :: _) :: _ => length qh | _ => 0 end in
  let Sk := match key with (kh :: _) :: _ => length kh | _ => 0 end in
  broadcasts (length m) B /\
  Forall (fun mb : list (list (list Z)) => broadcasts (length mb) H /\
    Forall (fun mh : list (list Z) => broadcasts (length mh) Sq /\
      Forall (fun row : list Z => broadcasts (length row) Sk) mh) mb) m.

Definition attention_shapes_ok (query key value : tensor4) (mask : option mask4) : Prop :=
  Forall2 (Forall2 widths_agree) query key /\
  Forall2 (Forall2 (fun kh vh : mat => length kh = length vh)) key value /\
  match mask with
  | Some m => mask_broadcasts m query key
  | None => True
  end.

#[global] Instance attention_shapes_ok_dec (query key value : tensor4) (mask : option mask4) :
  Decision (attention_shapes_ok query key value mask).
Proof.
  unfold attention_shapes_ok, mask_broadcasts, widths_agree, broadcasts.
  destruct mask; apply _.
Defined.

(** A call of the routine: it raises where torch rejects the shapes. *)
Definition attention_checked (query key value : tensor4) (mask : option mask4)
    (dropout : option (tensor4 -> tensor4)) : result (tensor4 * tensor4) :=
  if decide (attention_shapes_ok query key value mask)
  then Ok (attention query key value mask dropout)
  else Raise (RuntimeError "The size of tensor a must match the size of tensor b").

(** [x.view(B, S, h, d_k).transpose(1,2)]: the sizes are not negative
    (a block from the constructor has [h] and [d_k] of one sign) and every
    token has [h * d_k] entries. *)
Definition view_heads (h d_k : Z) (x : tensor3) : result tensor4 :=
  if decide ((0 <= h)%Z /\ (0 <= d_k)%Z /\
             Forall (Forall (fun tok : vec => Z.of_nat (length tok) = (h * d_k)%Z)) x)
  then Ok (split_heads (Z.to_nat h) (Z.to_nat d_k) x)
  else Raise (RuntimeError "shape is invalid for input").

(** [x.transpose(1,2).contiguous().view(B, -1, h * d_k)]: the middle size
    is inferred, which torch refuses when the known sizes multiply to 0. *)
Definition merge_view (h d_k : Z) (x : tensor4) : result tensor3 :=
  if decide (x <> [] /\ (0 < h * d_k)%Z)
  then Ok (merge_heads x)
  else Raise (RuntimeError "cannot reshape: the unspecified dimension is ambiguous").

(** Lines 119 to 128 up to the assignment: the projections, the views
    and the call of the routine. *)
Definition attend (self : t) (q k v : tensor3) (mask : option mask4)
    (keep : nat -> nat -> nat -> nat -> bool) : result (tensor4 * tensor4) :=
  query ← Linear.forward (w_q self) q;
  key ← Linear.forward (w_k self) k;
  value ← Linear.forward (w_v self) v;
  query ← view_heads (h self) (d_k self) query;
  key ← view_heads (h self) (d_k self) key;
  value ← view_heads (h self) (d_k self) value;
  attention_checked query key value mask (Some (Dropout.forward4 (dropout self) keep)).


(** [forward] assigns [self.attention_scores]; the instance after the
    call is returned next to the outcome, also when the call raises. *)
Definition forward (self : t) (q k v : tensor3) (mask : option mask4)
    (keep : nat -> nat -> nat -> nat -> bool) : result tensor3 * t :=
  match attend self q k v mask keep with
  | Raise e => (Raise e, self)
  | Ok (x, scores) =>
      let self := {| d_model := d_model self; h := h self; d_k := d_k self;
                     w_k := w_k self; w_q := w_q self; w_v := w_v self; w_o := w_o self;
                     dropout := dropout self; attention_scores := Some scores |} in
      (x ← merge_view (h self) (d_k self) x; Linear.forward (w_o self) x, self)
  end.

End MultiHeadAttentionBlock.

(** ** Python values that cross a dynamically checked call *)

Inductive pyval :=
| PyNone
| PyBool (b : bool)
| PyIds (ids : list (list Z))
| PyTensor (data : tensor3) (requires_grad : bool)
| PyMask (m : mask4)
| PyMethod (name : string) (self_data : tensor3) (self_requires_grad : bool).

(** Attribute access on a value.  On a tensor, [requires_grad] is a
    boolean attribute and [requires_grad_] is the in-place method. *)
Definition py_getattr (o : pyval) (name : string) : result pyval :=
  match o with
  | PyTensor data rg =>
      if decide (name = "requires_grad") then Ok (PyBool rg)
      else if decide (name = "requires_grad_") then Ok (PyMethod "requires_grad_" data rg)
      else Raise (AttributeError name)
  | _ => Raise (AttributeError name)
  end.

(** A call [f(args)] with positional arguments. *)
Definition py_call (f : pyval) (args : list pyval) : result pyval :=
  match f with
  | PyMethod name data rg =>
      if decide (name = "requires_grad_") then
        match args with
        | [] => Ok (PyTensor data true)
        | [PyBool b] => Ok (PyTensor data b)
        | _ => Raise (TypeError "requires_grad_(): invalid arguments")
        end
      else Raise (AttributeError name)
  | PyBool _ => Raise (TypeError "'bool' object is not callable")
  | PyNone => Raise (TypeError "'NoneType' object is not callable")
  | _ => Raise (TypeError "'Tensor' object is not callable")
  end.

(** ** InputEmbedding *)

Module InputEmbedding.

Record t := { d_model : Z; vocab_size : Z; embedding : mat }.

Definition lookup_row (self : t) (id : Z) : result vec :=
  if ((0 <=? id) && (id <? vocab_size self))%Z then
    match embedding self !! Z.to_nat id with
    | Some row => Ok ((fun v => (v * sqrt (IZR (d_model self)))%R) <$> row)
    | None => Raise (IndexError "index out of range in self")
    end
  else Raise (IndexError "index out of range in self").

Definition forward (self : t) (x : list (list Z)) : result tensor3 :=
  mapM (fun ids : list Z => mapM (lookup_row self) ids) x.

Definition call (self : t) (x : pyval) : result pyval :=
  match x with
  | PyIds ids => data ← forward self ids; Ok (PyTensor data true)
  | _ => Raise (TypeError "embedding(): argument 'indices' must be an integer Tensor")
  end.

End InputEmbedding.

(** ** PositionalEncoding *)

(** [torch.zeros(rows, cols)] *)
Definition torch_zeros (rows cols : Z) : result mat :=
  if ((rows <? 0) || (cols <? 0))%Z
  then Raise (RuntimeError "Trying to create tensor with negative dimension")
  else Ok (replicate (Z.to_nat rows) (replicate (Z.to_nat cols) 0%R)).

(** [torch.arange(start, stop, step)] on naturals, [0 < step] *)
Definition arange (start stop step : nat) : list nat :=
  (fun i => start + i * step) <$> seq 0 ((stop - start + step - 1) / step).

(** Python's [a / b] with an integer divisor *)
Definition py_truediv (a : R) (b : Z) : result R :=
  if (b =? 0)%Z then Raise ZeroDivisionError else Ok (a / IZR b)%R.

(** [t[:, start::2] = value], where [t] has [cols] columns and [value]
    has [vcols]: the value must have as many columns as the slice, or
    one column, which broadcasts. *)
Definition setitem_cols (start cols vcols : nat) (t value : mat) : result mat :=
  if decide (vcols = length (arange start cols 2) \/ vcols = 1) then
    Ok (zip_with (fun (row vrow : vec) =>
          imap (fun j x =>
            if decide (start <= j /\ (j - start) mod 2 = 0)
            then bnth 0%R vrow ((j - start) / 2)
            else x) row) t value)
  else Raise (RuntimeError "shape mismatch: value tensor cannot be broadcast to indexing result").

(** [x + t] for [x] of shape (B, L, D) and [t] of shape (1, L', D) *)
Definition add_broadcast (x t : tensor3) : result tensor3 :=
  if decide (shape1 t = shape1 x \/ shape1 t = 1) then
    Ok ((fun xb : mat =>
           imap (fun i (row : vec) => zip_with Rplus row (bnth [] (bnth [] t 0) i)) xb) <$> x)
  else Raise (RuntimeError "The size of tensor a must match the size of tensor b").

Module PositionalEncoding.

Record t := { d_model : Z; seq_len : Z; dropout : Dropout.t; pe : tensor3 }.

Definition init (d_model seq_len : Z) (dropout : R) : result t :=
  dropout ← Dropout.init dropout;
  pe ← torch_zeros seq_len d_model;
  let position := (fun p => [INR p]) <$> seq 0 (Z.to_nat seq_len) in
  c ← py_truediv (- ln 10000)%R d_model;
  let div_term := (fun k => exp (INR k * c)) <$> arange 0 (Z.to_nat d_model) 2 in
  let angle := (fun pos : vec => (fun dv => (bnth 0 pos 0 * dv)%R) <$> div_term) <$> position in
  pe ← setitem_cols 0 (Z.to_nat d_model) (length div_term) pe
         ((fun row : vec => sin <$> row) <$> angle);
  pe ← setitem_cols 1 (Z.to_nat d_model) (length div_term) pe
         ((fun row : vec => cos <$> row) <$> angle);
  Ok {| d_model := d_model; seq_len := seq_len; dropout := dropout; pe := [pe] |}.

Definition forward (self : t) (keep : nat -> nat -> nat -> bool) (x : tensor3)
    : result tensor3 :=
  let sliced := PyTensor ((fun peb : mat => take (shape1 x) peb) <$> pe self) false in
  attr ← py_getattr sliced "requires_grad";
  r ← py_call attr [PyBool false];
  match r with
  | PyTensor t _ =>
      x ← add_broadcast x t;
      Ok (Dropout.forward3 (dropout self) keep x)
  | _ => Raise (TypeError "unsupported operand type(s) for +")
  end.

Definition call (self : t) (keep : nat -> nat -> nat -> bool) (x : pyval) : result pyval :=
  match x with
  | PyTensor data rg => y ← forward self keep data; Ok (PyTensor y rg)
  | PyIds _ | PyMask _ =>
      (* an integer tensor has a shape too; line 38 fails in the same call *)
      attr ← py_getattr (PyTensor (pe self) false) "requires_grad";
      py_call attr [PyBool false]
  | _ => Raise (AttributeError "shape")
  end.

End PositionalEncoding.

(** ** LayerNormalization *)

Module LayerNormalization.

Inductive attr :=
| PyFloat (r : R)
| NnParameter (data : vec).

(** The instance dictionary: attribute name to value. *)
Definition init (eps : R) : gmap string attr :=
  <["beta" := NnParameter [0%R]]> (<["alpha" := NnParameter [1%R]]> (<["eps" := PyFloat eps]> ∅)).

Definition default_eps : R := (/ 1000000)%R.

Definition getattr (self : gmap string attr) (name : string) : result attr :=
  match self !! name with
  | Some a => Ok a
  | None => Raise (AttributeError name)
  end.

(** A float, or a parameter read at feature [j] (one element broadcasts) *)
Definition at_feature (a : attr) (j : nat) : R :=
  match a with
  | PyFloat r => r
  | NnParameter data => bnth 0%R data j
  end.

Definition mean (tok : vec) : R := (sum_list tok / INR (length tok))%R.

(** [std] is torch's unbiased estimate *)
Definition std (tok : vec) : R :=
  sqrt (sum_list ((fun v => ((v - mean tok) * (v - mean tok))%R) <$> tok)
        / (INR (length tok) - 1)).

Definition normalize (alpha eps bias : attr) (tok : vec) : vec :=
  imap (fun j v =>
    (at_feature alpha j * (v - mean tok) / (std tok + at_feature eps j)
     + at_feature bias j)%R) tok.

Definition forward (self : gmap string attr) (x : tensor3) : result tensor3 :=
  (* lines 72 and 73 read the shapes of [self.alpha] and [self.bias] *)
  _ ← getattr self "alpha";
  _ ← getattr self "bias";
  (* line 74 *)
  alpha ← getattr self "alpha";
  eps ← getattr self "eps";
  bias ← getattr self "bias";
  Ok ((fun xb : mat => normalize alpha eps bias <$> xb) <$> x).

Definition call (self : gmap string attr) (x : pyval) : result pyval :=
  match x with
  | PyTensor data rg => y ← forward self data; Ok (PyTensor y rg)
  | _ => Raise (AttributeError "float")
  end.

End LayerNormalization.

(** ** Decoder *)

Module Decoder.

(** A decoder block, called as [layer(x, encoder_output, src_mask, tgt_mask)] *)
Definition layer := pyval -> pyval -> pyval -> pyval -> result pyval.

Record t := { layers : list layer; norm : gmap string LayerNormalization.attr }.

Fixpoint run_layers (ls : list layer) (x encoder_output src_mask tgt_mask : pyval)
    : result pyval :=
  match ls with
  | [] => Ok x
  | l :: ls' =>
      x ← l x encoder_output src_mask tgt_mask;
      run_layers ls' x encoder_output src_mask tgt_mask
  end.

Definition forward (self : t) (x encoder_output src_mask tgt_mask : pyval) : result pyval :=
  x ← run_layers (layers self) x encoder_output src_mask tgt_mask;
  LayerNormalization.call (norm self) x.

(** [self.decoder(...)]: the positional arguments are bound to the four
    parameters of [forward]. *)
Definition call (self : t) (args : list pyval) : result pyval :=
  match args with
  | [x; encoder_output; src_mask; tgt_mask] => forward self x encoder_output src_mask tgt_mask
  | _ => Raise (TypeError "forward() takes 5 positional arguments")
  end.

End Decoder.

(** ** Transformer *)

Module Transformer.

(** The sub-modules other than the decoder are held as callables. *)
Record t := {
  encoder : pyval -> pyval -> result pyval;
  decoder : Decoder.t;
  src_embed : pyval -> result pyval;
  tgt_embed : pyval -> result pyval;
  src_pos : pyval -> result pyval;
  tgt_pos : pyval -> result pyval;
  projection_layer : pyval -> result pyval
}.

Definition encode (self : t) (args : list pyval) : result pyval :=
  match args with
  | [src; src_mask] =>
      src ← src_embed self src;
      src ← src_pos self src;
      encoder self src src_mask
  | _ => Raise (TypeError "encode() takes 3 positional arguments")
  end.

Definition decode (self : t) (args : list pyval) : result pyval :=
  match args with
  | [encoder_output; src; tgt; src_mask; tgt_mask] =>
      tgt ← tgt_embed self tgt;
      tgt ← tgt_pos self tgt;
      Decoder.call (decoder self) [encoder_output; src; tgt; src_mask; tgt_mask]
  | _ => Raise (TypeError "decode() takes 6 positional arguments")
  end.

Definition projection (self : t) (args : list pyval) : result pyval :=
  match args with
  | [x] => projection_layer self x
  | _ => Raise (TypeError "projection() takes 2 positional arguments")
  end.

End Transformer.

(** ** train.py: greedy decoding *)

(** Calls on the model may change the model: the state is threaded. *)
Definition M (St A : Type) : Type := St -> result (A * St).

#[global] Instance M_ret {St} : MRet (M St) := fun A a s => Ok (a, s).
#[global] Instance M_bind {St} : MBind (M St) := fun A B f m s =>
  match m s with
  | Ok (a, s') => f a s'
  | Raise e => Raise e
  end.

Definition lift {St A} (r : result A) : M St A := fun s =>
  match r with
  | Ok a => Ok (a, s)
  | Raise e => Raise e
  end.

(** The three methods [greedy_decode] calls on its [model] argument *)
Record Model (St : Type) := {
  encode : list (list Z) -> mask4 -> M St tensor3;
  decode : tensor3 -> mask4 -> list (list Z) -> mask4 -> M St tensor3;
  project : mat -> M St mat
}.
Arguments encode {St} _ _ _.
Arguments decode {St} _ _ _ _ _.
Arguments project {St} _ _.

Record Tokenizer := { token_to_ids : string -> result Z }.

(** [out[:, -1]] *)
Definition index_last (out : tensor3) : result mat :=
  mapM (fun ob : mat =>
          match last ob with
          | Some row => Ok row
          | None => Raise (IndexError "index -1 is out of bounds for dimension 1 with size 0")
          end) out.

Fixpoint argmax_from (best_i : nat) (best : R) (i : nat) (v : vec) : nat :=
  match v with
  | [] => best_i
  | x :: v' =>
      if Rlt_dec best x then argmax_from i x (S i) v'
      else argmax_from best_i best (S i) v'
  end.

(** The indices returned by [torch.max(prob, dim=1)] *)
Definition torch_max_dim1 (prob : mat) : result (list Z) :=
  mapM (fun row : vec =>
          match row with
          | [] => Raise (IndexError "max(): Expected reduction dim 1 to have non-zero size")
          | x :: row' => Ok (Z.of_nat (argmax_from 0 x 1 row'))
          end) prob.

(** [t.item()] *)
Definition item (t : list Z) : result Z :=
  match t with
  | [x] => Ok x
  | _ => Raise (RuntimeError "a Tensor with several elements cannot be converted to Scalar")
  end.

(** [torch.empty(1,1).fill_(n)] on the default float32 tensor, read back
    as an integer by [type_as]: the float32 value nearest to [n], ties to
    even.  Integers up to 2^24 in magnitude are kept. *)
Definition float32_round (n : Z) : Z :=
  let a := Z.abs n in
  if (a <? 2 ^ 24)%Z then n
  else
    let e := (Z.log2 a - 23)%Z in
    let q := Z.shiftr a e in
    let r := (a - Z.shiftl q e)%Z in
    let half := Z.shiftl 1 (e - 1) in
    let q' := if (half <? r)%Z || ((r =? half)%Z && Z.odd q) then (q + 1)%Z else q in
    (Z.sgn n * Z.shiftl q' e)%Z.

Section GreedyDecode.

Context {St : Type}.
(** [causal_mask] is imported from [dataset], which is not part of the
    sources at hand: it is a parameter. *)
Variable causal_mask : nat -> result mask4.
Variable model : Model St.
Variables (source : list (list Z)) (source_mask : mask4).
Variables (tokenizer_src tokenizer_tgt : Tokenizer).
Variable max_len : Z.

(** Token ids are integers within the range of the source's integer
    type.  Line 28 fills a float32 tensor with the start id before the
    cast ([float32_round]); line 43 casts before it fills, which keeps the
    token.  [to(device)] moves no value; [tokenizer_src] and [device] take
    no part in the result. *)

(** The [while True] loop.  [decoder_input] is the single row of the
    (1, L) tensor; [fuel] bounds how often the loop head is entered and
    [None] says that it ran out. *)
Fixpoint greedy_loop (eos_idx : Z) (encoder_output : tensor3) (fuel : nat)
    (decoder_input : list Z) : M St (option (list Z)) :=
  match fuel with
  | O => mret None
  | S fuel' =>
      if decide (Z.of_nat (length decoder_input) = max_len)
      then mret (Some decoder_input)
      else
        decoder_mask ← lift (causal_mask (length decoder_input));
        out ← decode model encoder_output source_mask [decoder_input] decoder_mask;
        last_out ← lift (index_last out);
        prob ← project model last_out;
        next_word ← lift (torch_max_dim1 prob);
        next_item ← lift (item next_word);
        let decoder_input := decoder_input ++ [next_item] in
        if decide (next_item = eos_idx)
        then mret (Some decoder_input)
        else greedy_loop eos_idx encoder_output fuel' decoder_input
  end.

Definition greedy_decode (fuel : nat) : M St (option (list Z)) :=
  sos_idx ← lift (token_to_ids tokenizer_tgt "[SOS]");
  eos_idx ← lift (token_to_ids tokenizer_tgt "[EOS]");
  encoder_output ← encode model source source_mask;
  let decoder_input := [float32_round sos_idx] in
  greedy_loop eos_idx encoder_output fuel decoder_input.

(** Lines 34 to 41, one pass of the loop body up to the next token; the
    unfolding lemma of [greedy_loop] is stated with it. *)
Definition next_token (encoder_output : tensor3) (decoder_input : list Z) : M St Z :=
  decoder_mask ← lift (causal_mask (length decoder_input));
  out ← decode model encoder_output source_mask [decoder_input] decoder_mask;
  last_out ← lift (index_last out);
  prob ← project model last_out;
  next_word ← lift (torch_max_dim1 prob);
  lift (item next_word).

End GreedyDecode.

(** The loop is still running when the fuel is used up. *)
Definition out_of_fuel {St A} (r : result (option A * St)) : Prop :=
  exists s, r = Ok (None, s).

(** ** Sample inputs *)

Module Sample.

Definition weights0 : MultiHeadAttentionBlock.init_weights :=
  {| MultiHeadAttentionBlock.k0 := ([], []); MultiHeadAttentionBlock.q0 := ([], []);
     MultiHeadAttentionBlock.v0 := ([], []); MultiHeadAttentionBlock.o0 := ([], []) |}.

(** One batch, one head, one query, two keys; the second key is masked. *)
Definition query : tensor4 := [[[[0%R]]]].
Definition key : tensor4 := [[[[0%R]; [0%R]]]].
Definition value : tensor4 := [[[[1%R]; [2%R]]]].
Definition mask : mask4 := [[[[1%Z; 0%Z]]]].

(** One batch, one head, one query, one key, and the default dropout of
    [build_transformer] in training mode with every entry kept. *)
Definition key1 : tensor4 := [[[[0%R]]]].
Definition value1 : tensor4 := [[[[1%R]]]].
Definition dropout01 : Dropout.t := {| Dropout.p := (1 / 10)%R; Dropout.training := true |}.
Definition keep_all (b h i j : nat) : bool := true.

(** A one-dimensional single-head block whose projections are the identity *)
Definition ident : Linear.t :=
  {| Linear.in_features := 1; Linear.out_features := 1;
     Linear.weight := [[1%R]]; Linear.bias := [0%R] |}.
Definition block : MultiHeadAttentionBlock.t :=
  {| MultiHeadAttentionBlock.d_model := 1; MultiHeadAttentionBlock.h := 1;
     MultiHeadAttentionBlock.d_k := 1;
     MultiHeadAttentionBlock.w_k := ident; MultiHeadAttentionBlock.w_q := ident;
     MultiHeadAttentionBlock.w_v := ident; MultiHeadAttentionBlock.w_o := ident;
     MultiHeadAttentionBlock.dropout := {| Dropout.p := 0%R; Dropout.training := false |};
     MultiHeadAttentionBlock.attention_scores := None |}.
Definition x1 : tensor3 := [[[1%R]]].

(** A stateless model over a one-word vocabulary: it always predicts
    the id 0. *)
Definition model : Model unit :=
  {| encode := fun _ _ s => Ok ([[[0%R]]], s);
     decode := fun _ _ _ _ s => Ok ([[[0%R]]], s);
     project := fun _ s => Ok ([[0%R]], s) |}.

Definition causal_mask (size : nat) : result mask4 :=
  Ok [[(fun i => (fun j => if (j <=? i)%nat then 1%Z else 0%Z) <$> seq 0 size) <$> seq 0 size]].

(** The ids of [WordLevelTrainer] with the special tokens in the order
    of [get_or_build_tokenizer]: [EOS] is 2 and [SOS] is 3. *)
Definition tokenizer : Tokenizer :=
  {| token_to_ids := fun tok =>
       if decide (tok = "[UNK]") then Ok 0%Z
       else if decide (tok = "[PAD]") then Ok 1%Z
       else if decide (tok = "[EOS]") then Ok 2%Z
       else if decide (tok = "[SOS]") then Ok 3%Z
       else Raise (ValueError "unknown token") |}.

(** A transformer over a four-word target vocabulary with [d_model = 2],
    an empty decoder stack, and the repository's embedding and positional
    encoding as target sub-modules. *)
Definition tgt_embedding : InputEmbedding.t :=
  {| InputEmbedding.d_model := 2; InputEmbedding.vocab_size := 4;
     InputEmbedding.embedding := [[0%R; 0%R]; [0%R; 1%R]; [1%R; 0%R]; [1%R; 1%R]] |}.
Definition tgt_position : PositionalEncoding.t :=
  {| PositionalEncoding.d_model := 2; PositionalEncoding.seq_len := 1;
     PositionalEncoding.dropout := {| Dropout.p := 0%R; Dropout.training := false |};
     PositionalEncoding.pe := [[[0%R; 1%R]]] |}.
Definition transformer : Transformer.t :=
  {| Transformer.encoder := fun x _ => Ok x;
     Transformer.decoder :=
       {| Decoder.layers := [];
          Decoder.norm := LayerNormalization.init LayerNormalization.default_eps |};
     Transformer.src_embed := InputEmbedding.call tgt_embedding;
     Transformer.tgt_embed := InputEmbedding.call tgt_embedding;
     Transformer.src_pos := PositionalEncoding.call tgt_position (fun _ _ _ => true);
     Transformer.tgt_pos := PositionalEncoding.call tgt_position (fun _ _ _ => true);
     Transformer.projection_layer := fun x => Ok x |}.



End Sample.

(** ** The remaining modules of model.py *)

(** [x + y] on tensors of one shape *)
Definition add3 (x y : tensor3) : tensor3 :=
  zip_with (zip_with (zip_with Rplus)) x y.

(** [modules[i]] on an [nn.ModuleList] *)
Definition module_list_get {A} (modules : list A) (i : nat) : result A :=
  match modules !! i with
  | Some m => Ok m
  | None => Raise (IndexError "index is out of range")
  end.

Module FeedForwardBlock.

Record t := { linear_1 : Linear.t; dropout : Dropout.t; linear_2 : Linear.t }.

Definition init (d_model d_ff : Z) (dropout : R) (w1 w2 : mat * vec) : result t :=
  linear_1 ← Linear.init d_model d_ff w1.1 w1.2;
  dropout ← Dropout.init dropout;
  linear_2 ← Linear.init d_ff d_model w2.1 w2.2;
  Ok {| linear_1 := linear_1; dropout := dropout; linear_2 := linear_2 |}.

(** [torch.relu] *)
Definition relu (x : tensor3) : tensor3 :=
  (fun xb : mat => (fun tok : vec => Rmax 0 <$> tok) <$> xb) <$> x.

Definition forward (self : t) (keep : nat -> nat -> nat -> bool) (x : tensor3)
    : result tensor3 :=
  hidden ← Linear.forward (linear_1 self) x;
  Linear.forward (linear_2 self) (Dropout.forward3 (dropout self) keep (relu hidden)).

End FeedForwardBlock.

(** An attention block as a sublayer: its output, and the block after the
    call. *)
Definition attention_sublayer (r : result tensor3 * MultiHeadAttentionBlock.t)
    : result (tensor3 * MultiHeadAttentionBlock.t) :=
  y ← r.1; Ok (y, r.2).

Module ResidualConnection.

Record t := { dropout : Dropout.t; norm : gmap string LayerNormalization.attr }.

Definition init (dropout : R) : result t :=
  dropout ← Dropout.init dropout;
  Ok {| dropout := dropout;
        norm := LayerNormalization.init LayerNormalization.default_eps |}.

(** The sublayer may update the module it belongs to; what it returns
    next to its output is handed on. *)
Definition forward {A} (self : t) (keep : nat -> nat -> nat -> bool) (x : tensor3)
    (sublayer : tensor3 -> result (tensor3 * A)) : result (tensor3 * A) :=
  normed ← LayerNormalization.forward (norm self) x;
  '(y, a) ← sublayer normed;
  Ok (add3 x (Dropout.forward3 (dropout self) keep y), a).

End ResidualConnection.

Module EncoderBlock.

Record t := {
  self_attention_block : MultiHeadAttentionBlock.t;
  feed_forward_block : FeedForwardBlock.t;
  dropout : Dropout.t;
  residual_connection : list ResidualConnection.t
}.

Definition init (self_attention_block : MultiHeadAttentionBlock.t)
    (feed_forward_block : FeedForwardBlock.t) (dropout : R) : result t :=
  drop ← Dropout.init dropout;
  residual_connection ← mapM (fun _ : nat => ResidualConnection.init dropout) (seq 0 2);
  Ok {| self_attention_block := self_attention_block;
        feed_forward_block := feed_forward_block;
        dropout := drop;
        residual_connection := residual_connection |}.

(** The Bernoulli draws of one forward pass, one per dropout module *)
Record draws := {
  attention_keep : nat -> nat -> nat -> nat -> bool;
  feed_forward_keep : nat -> nat -> nat -> bool;
  residual_keep : nat -> nat -> nat -> nat -> bool
}.

Definition forward (self : t) (d : draws) (x : tensor3) (src_mask : option mask4)
    : result (tensor3 * t) :=
  rc0 ← module_list_get (residual_connection self) 0;
  '(x, attn) ← ResidualConnection.forward rc0 (residual_keep d 0) x
      (fun x => attention_sublayer
                  (MultiHeadAttentionBlock.forward (self_attention_block self)
                     x x x src_mask (attention_keep d)));
  rc1 ← module_list_get (residual_connection self) 1;
  '(x, _) ← ResidualConnection.forward rc1 (residual_keep d 1) x
      (fun x => y ← FeedForwardBlock.forward (feed_forward_block self)
                       (feed_forward_keep d) x;
                Ok (y, tt));
  Ok (x, {| self_attention_block := attn;
            feed_forward_block := feed_forward_block self;
            dropout := dropout self;
            residual_connection := residual_connection self |}).

End EncoderBlock.

Module Encoder.

Record t := { layers : list EncoderBlock.t; norm : gmap string LayerNormalization.attr }.

Definition init (layers : list EncoderBlock.t) : t :=
  {| layers := layers; norm := LayerNormalization.init LayerNormalization.default_eps |}.

(** The [for] loop; layer [i] draws [d i]. *)
Fixpoint run_layers (ls : list EncoderBlock.t) (d : nat -> EncoderBlock.draws) (i : nat)
    (x : tensor3) (mask : option mask4) : result (tensor3 * list EncoderBlock.t) :=
  match ls with
  | [] => Ok (x, [])
  | l :: ls' =>
      '(x, l') ← EncoderBlock.forward l (d i) x mask;
      '(x, ls'') ← run_layers ls' d (S i) x mask;
      Ok (x, l' :: ls'')
  end.

Definition forward (self : t) (d : nat -> EncoderBlock.draws) (x : tensor3)
    (mask : option mask4) : result (tensor3 * t) :=
  '(x, ls) ← run_layers (layers self) d 0 x mask;
  y ← LayerNormalization.forward (norm self) x;
  Ok (y, {| layers := ls; norm := norm self |}).

End Encoder.

Module DecoderBlock.

Record t := {
  self_attention_block : MultiHeadAttentionBlock.t;
  cross_attention_block : MultiHeadAttentionBlock.t;
  feed_forward_block : FeedForwardBlock.t;
  residual_connection : list ResidualConnection.t
}.

Definition init (self_attention_block cross_attention_block : MultiHeadAttentionBlock.t)
    (feed_forward_block : FeedForwardBlock.t) (dropout : R) : result t :=
  residual_connection ← mapM (fun _ : nat => ResidualConnection.init dropout) (seq 0 3);
  Ok {| self_attention_block := self_attention_block;
        cross_attention_block := cross_attention_block;
        feed_forward_block := feed_forward_block;
        residual_connection := residual_connection |}.

Record draws := {
  self_attention_keep : nat -> nat -> nat -> nat -> bool;
  cross_attention_keep : nat -> nat -> nat -> nat -> bool;
  feed_forward_keep : nat -> nat -> nat -> bool;
  residual_keep : nat -> nat -> nat -> nat -> bool
}.

Definition forward (self : t) (d : draws) (x encoder_output : tensor3)
    (src_mask tgt_mask : option mask4) : result (tensor3 * t) :=
  rc0 ← module_list_get (residual_connection self) 0;
  '(x, self_attn) ← ResidualConnection.forward rc0 (residual_keep d 0) x
      (fun x => attention_sublayer
                  (MultiHeadAttentionBlock.forward (self_attention_block self)
                     x x x tgt_mask (self_attention_keep d)));
  rc1 ← module_list_get (residual_connection self) 1;
  '(x, cross_attn) ← ResidualConnection.forward rc1 (residual_keep d 1) x
      (fun x => attention_sublayer
                  (MultiHeadAttentionBlock.forward (cross_attention_block self)
                     x encoder_output encoder_output src_mask (cross_attention_keep d)));
  rc2 ← module_list_get (residual_connection self) 2;
  '(x, _) ← ResidualConnection.forward rc2 (residual_keep d 2) x
      (fun x => y ← FeedForwardBlock.forward (feed_forward_block self)
                       (feed_forward_keep d) x;
                Ok (y, tt));
  Ok (x, {| self_attention_block := self_attn;
            cross_attention_block := cross_attn;
            feed_forward_block := feed_forward_block self;
            residual_connection := residual_connection self |}).

End DecoderBlock.

Module ProjectionLayer.

Record t := { proj : Linear.t }.

Definition init (d_model vocab_size : Z) (w : mat * vec) : result t :=
  proj ← Linear.init d_model vocab_size w.1 w.2;
  Ok {| proj := proj |}.

Definition forward (self : t) (x : tensor3) : result tensor3 := Linear.forward (proj self) x.

End ProjectionLayer.

(** ** build_transformer *)

(** The random initial values: entry [(i, j)] of the weight matrix and
    entry [i] of the bias of the parameter created at [path].  The values
    are the ones left by the final Xavier loop of [build_transformer]. *)
Record initializer := {
  weight_entry : list nat -> nat -> nat -> R;
  bias_entry : list nat -> nat -> R
}.

(** A [rows] by [cols] matrix with the given entries *)
Definition shaped_matrix (rows cols : Z) (entry : nat -> nat -> R) : mat :=
  (fun i => (fun j => entry i j) <$> seq 0 (Z.to_nat cols)) <$> seq 0 (Z.to_nat rows).

(** The weight and bias of [nn.Linear(in_features, out_features)] *)
Definition shaped_linear (rng : initializer) (path : list nat) (in_features out_features : Z)
    : mat * vec :=
  (shaped_matrix out_features in_features (weight_entry rng path),
   bias_entry rng path <$> seq 0 (Z.to_nat out_features)).

Definition attention_weights (rng : initializer) (path : list nat) (d_model : Z)
    : MultiHeadAttentionBlock.init_weights :=
  {| MultiHeadAttentionBlock.k0 := shaped_linear rng (path ++ [0]) d_model d_model;
     MultiHeadAttentionBlock.q0 := shaped_linear rng (path ++ [1]) d_model d_model;
     MultiHeadAttentionBlock.v0 := shaped_linear rng (path ++ [2]) d_model d_model;
     MultiHeadAttentionBlock.o0 := shaped_linear rng (path ++ [3]) d_model d_model |}.

(** [InputEmbedding(d_model, vocab_size)]: [nn.Embedding] allocates a
    [vocab_size] by [d_model] table. *)
Definition InputEmbedding_init (rng : initializer) (path : list nat) (d_model vocab_size : Z)
    : result InputEmbedding.t :=
  if ((vocab_size <? 0) || (d_model <? 0))%Z
  then Raise (RuntimeError "Trying to create tensor with negative dimension")
  else Ok {| InputEmbedding.d_model := d_model;
             InputEmbedding.vocab_size := vocab_size;
             InputEmbedding.embedding :=
               shaped_matrix vocab_size d_model (weight_entry rng path) |}.

(** The module tree that [build_transformer] hands to [Transformer]. *)
Record modules := {
  encoder : Encoder.t;
  decoder_layers : list DecoderBlock.t;
  decoder_norm : gmap string LayerNormalization.attr;
  src_embed : InputEmbedding.t;
  tgt_embed : InputEmbedding.t;
  src_pos : PositionalEncoding.t;
  tgt_pos : PositionalEncoding.t;
  projection_layer : ProjectionLayer.t
}.

Definition build_encoder_block (rng : initializer) (h d_model d_ff : Z) (dropout : R)
    (i : nat) : result EncoderBlock.t :=
  encoder_self_attention_block ←
    MultiHeadAttentionBlock.init d_model h dropout (attention_weights rng [2; i; 0] d_model);
  feed_forward_block ←
    FeedForwardBlock.init d_model d_ff dropout
      (shaped_linear rng [2; i; 1; 0] d_model d_ff) (shaped_linear rng [2; i; 1; 1] d_ff d_model);
  EncoderBlock.init encoder_self_attention_block feed_forward_block dropout.

Definition build_decoder_block (rng : initializer) (h d_model d_ff : Z) (dropout : R)
    (i : nat) : result DecoderBlock.t :=
  decoder_self_attention_block ←
    MultiHeadAttentionBlock.init d_model h dropout (attention_weights rng [3; i; 0] d_model);
  decoder_cross_attention_block ←
    MultiHeadAttentionBlock.init d_model h dropout (attention_weights rng [3; i; 1] d_model);
  feed_forward_block ←
    FeedForwardBlock.init d_model d_ff dropout
      (shaped_linear rng [3; i; 2; 0] d_model d_ff) (shaped_linear rng [3; i; 2; 1] d_ff d_model);
  DecoderBlock.init decoder_self_attention_block decoder_cross_attention_block
    feed_forward_block dropout.

(** [range(N)] is empty for [N <= 0].  The closing loop over
    [transformer.parameters()] re-draws the matrices, whose values [rng]
    stands for, and raises nothing. *)
Definition build_transformer (rng : initializer)
    (src_vocab_size tgt_vocab_size src_seq_len tgt_seq_len N h d_model d_ff : Z)
    (dropout : R) : result modules :=
  src_embed ← InputEmbedding_init rng [0] d_model src_vocab_size;
  tgt_embed ← InputEmbedding_init rng [1] d_model tgt_vocab_size;
  src_pos ← PositionalEncoding.init d_model src_seq_len dropout;
  tgt_pos ← PositionalEncoding.init d_model tgt_seq_len dropout;
  encoder_blocks ← mapM (build_encoder_block rng h d_model d_ff dropout) (seq 0 (Z.to_nat N));
  decoder_blocks ← mapM (build_decoder_block rng h d_model d_ff dropout) (seq 0 (Z.to_nat N));
  let encoder := Encoder.init encoder_blocks in
  projection_layer ← ProjectionLayer.init d_model tgt_vocab_size
                       (shaped_linear rng [4] d_model tgt_vocab_size);
  Ok {| encoder := encoder;
        decoder_layers := decoder_blocks;
        decoder_norm := LayerNormalization.init LayerNormalization.default_eps;
        src_embed := src_embed; tgt_embed := tgt_embed;
        src_pos := src_pos; tgt_pos := tgt_pos;
        projection_layer := projection_layer |}.

(** train.py, [get_model]: the two entries of [config] that it reads.
    The fifth positional argument of [build_transformer] is [N]; [h],
    [d_model], [d_ff] and [dropout] take their defaults. *)
Record config := { config_seq_len : Z; config_d_model : Z }.

Definition get_model (rng : initializer) (cfg : config) (vocab_src_len vocab_tgt_len : Z)
    : result modules :=
  build_transformer rng vocab_src_len vocab_tgt_len
    (config_seq_len cfg) (config_seq_len cfg) (config_d_model cfg)
    8 512 2048 (1 / 10).

(** What the attention blocks of a built model look like *)
Definition attention_configured (d_model h : Z) (a : MultiHeadAttentionBlock.t) : Prop :=
  MultiHeadAttentionBlock.d_model a = d_model /\
  MultiHeadAttentionBlock.h a = h /\
  MultiHeadAttentionBlock.d_k a = (d_model / h)%Z.

(** ** The module tree seen through its calls *)

(** A call receives any value; one of another kind than the module works
    on is rejected at the call.  Which exception Python raises for it
    inside the module is not tracked. *)

Definition as_tensor (v : pyval) : result tensor3 :=
  match v with
  | PyTensor data _ => Ok data
  | _ => Raise (TypeError "expected a floating point tensor")
  end.

Definition as_mask (v : pyval) : result (option mask4) :=
  match v with
  | PyMask m => Ok (Some m)
  | PyNone => Ok None
  | _ => Raise (TypeError "expected a mask or None")
  end.

(** The draws of one pass through the whole model *)
Record model_draws := {
  src_position_keep : nat -> nat -> nat -> bool;
  tgt_position_keep : nat -> nat -> nat -> bool;
  encoder_draws : nat -> EncoderBlock.draws;
  decoder_draws : nat -> DecoderBlock.draws
}.

Definition encoder_call (self : Encoder.t) (d : nat -> EncoderBlock.draws)
    (x mask : pyval) : result pyval :=
  x ← as_tensor x;
  mask ← as_mask mask;
  '(y, _) ← Encoder.forward self d x mask;
  Ok (PyTensor y true).

Definition decoder_block_call (self : DecoderBlock.t) (d : DecoderBlock.draws)
    : Decoder.layer := fun x encoder_output src_mask tgt_mask =>
  x ← as_tensor x;
  encoder_output ← as_tensor encoder_output;
  src_mask ← as_mask src_mask;
  tgt_mask ← as_mask tgt_mask;
  '(y, _) ← DecoderBlock.forward self d x encoder_output src_mask tgt_mask;
  Ok (PyTensor y true).

Definition projection_call (self : ProjectionLayer.t) (x : pyval) : result pyval :=
  x ← as_tensor x;
  y ← ProjectionLayer.forward self x;
  Ok (PyTensor y true).

(** [Transformer(encoder, decoder, src_embed, tgt_embed, src_pos, tgt_pos,
    projection_layer)] *)
Definition as_transformer (m : modules) (d : model_draws) : Transformer.t :=
  {| Transformer.encoder := encoder_call (encoder m) (encoder_draws d);
     Transformer.decoder :=
       {| Decoder.layers :=
            imap (fun i l => decoder_block_call l (decoder_draws d i)) (decoder_layers m);
          Decoder.norm := decoder_norm m |};
     Transformer.src_embed := InputEmbedding.call (src_embed m);
     Transformer.tgt_embed := InputEmbedding.call (tgt_embed m);
     Transformer.src_pos := PositionalEncoding.call (src_pos m) (src_position_keep d);
     Transformer.tgt_pos := PositionalEncoding.call (tgt_pos m) (tgt_position_keep d);
     Transformer.projection_layer := projection_call (projection_layer m) |}.

(** The transformer as the [model] argument of [greedy_decode]: the
    calls [model.encode(source, source_mask)] and [model.decode(encoder_output,
    source_mask, decoder_input, decoder_mask)] pass their arguments by
    position; the class defines [projection], and no attribute [project]. *)
Definition as_model (self : Transformer.t) : Model unit :=
  {| encode := fun source source_mask s =>
       r ← Transformer.encode self [PyIds source; PyMask source_mask];
       t ← as_tensor r;
       Ok (t, s);
     decode := fun encoder_output source_mask decoder_input decoder_mask s =>
       r ← Transformer.decode self
             [PyTensor encoder_output true; PyMask source_mask;
              PyIds decoder_input; PyMask decoder_mask];
       t ← as_tensor r;
       Ok (t, s);
     project := fun _ _ => Raise (AttributeError "project") |}.

(** ** Further sample inputs *)

Module Fixture.

Definition rng : initializer :=
  {| weight_entry := fun _ _ _ => 0%R; bias_entry := fun _ _ => 0%R |}.

Definition no_draws3 (b i j : nat) : bool := true.
Definition no_draws4 (b h i j : nat) : bool := true.

Definition block_draws : EncoderBlock.draws :=
  {| EncoderBlock.attention_keep := no_draws4;
     EncoderBlock.feed_forward_keep := no_draws3;
     EncoderBlock.residual_keep := fun _ => no_draws3 |}.

Definition decoder_block_draws : DecoderBlock.draws :=
  {| DecoderBlock.self_attention_keep := no_draws4;
     DecoderBlock.cross_attention_keep := no_draws4;
     DecoderBlock.feed_forward_keep := no_draws3;
     DecoderBlock.residual_keep := fun _ => no_draws3 |}.

Definition draws : model_draws :=
  {| src_position_keep := no_draws3; tgt_position_keep := no_draws3;
     encoder_draws := fun _ => block_draws;
     decoder_draws := fun _ => decoder_block_draws |}.

(** A feed-forward block from one feature to two and back *)
(** What [feed_forward] below returns on [Sample.x1] *)
Definition feed_forward_x1 : tensor3 :=
  [[ [(Rmax 0 (1 * 1 + 0 + 0) * 1 + (Rmax 0 (1 * 1 + 0 + 0) * 1 + 0) + 0)%R] ]].

Definition feed_forward : FeedForwardBlock.t :=
  {| FeedForwardBlock.linear_1 :=
       {| Linear.in_features := 1; Linear.out_features := 2;
          Linear.weight := [[1%R]; [1%R]]; Linear.bias := [0%R; 0%R] |};
     FeedForwardBlock.dropout := {| Dropout.p := 0%R; Dropout.training := false |};
     FeedForwardBlock.linear_2 :=
       {| Linear.in_features := 2; Linear.out_features := 1;
          Linear.weight := [[1%R; 1%R]]; Linear.bias := [0%R] |} |}.

(** The modules as their constructors leave them for the default dropout *)
Definition dropout_module : Dropout.t := {| Dropout.p := (1 / 10)%R; Dropout.training := true |}.
Definition residual : ResidualConnection.t :=
  {| ResidualConnection.dropout := dropout_module;
     ResidualConnection.norm := LayerNormalization.init LayerNormalization.default_eps |}.
Definition encoder_block : EncoderBlock.t :=
  {| EncoderBlock.self_attention_block := Sample.block;
     EncoderBlock.feed_forward_block := feed_forward;
     EncoderBlock.dropout := dropout_module;
     EncoderBlock.residual_connection := [residual; residual] |}.
Definition decoder_block : DecoderBlock.t :=
  {| DecoderBlock.self_attention_block := Sample.block;
     DecoderBlock.cross_attention_block := Sample.block;
     DecoderBlock.feed_forward_block := feed_forward;
     DecoderBlock.residual_connection := [residual; residual; residual] |}.

End Fixture.

(** * Properties *)

(** ** The error monad *)

Lemma result_bind_ok {A B} (m : result A) (f : A -> result B) (b : B) :
  m ≫= f = Ok b -> exists a, m = Ok a /\ f a = Ok b.
Proof.
  destruct m as [a | e]; [| discriminate]. intros H. exists a. split; [reflexivity | exact H].
Qed.

Ltac inv_bind H :=
  repeat (let a := fresh "a" in
          let Ha := fresh "Ha" in
          apply result_bind_ok in H as (a & Ha & H)).

(** Evaluation of the shape checks on concrete tensors *)
Ltac solve_shape :=
  unfold Linear.accepts;
  unfold MultiHeadAttentionBlock.attention_shapes_ok, MultiHeadAttentionBlock.widths_agree,
    MultiHeadAttentionBlock.mask_broadcasts, MultiHeadAttentionBlock.broadcasts;
  cbn; repeat (first [lia | discriminate | constructor]).

Ltac pass_checks :=
  repeat (first [ rewrite decide_True by solve_shape
                | progress cbn [mbind result_bind] ]).

(** A linear layer that returns has accepted every token and returns
    the layer applied to each of them. *)
Lemma Linear_forward_ok (self : Linear.t) (x y : tensor3) :
  Linear.forward self x = Ok y ->
  Forall (Forall (Linear.accepts self)) x /\
  y = (fun xb : mat => Linear.apply self <$> xb) <$> x.
Proof.
  unfold Linear.forward.
  destruct (decide (Forall (Forall (Linear.accepts self)) x)) as [Hok | Hno];
    [| discriminate].
  intros [= <-]. split; [exact Hok | reflexivity].
Qed.

(** ** Construction of an attention block *)

Lemma Linear_init_ok (n : Z) (w : mat) (b : vec) :
  (0 <= n)%Z ->
  Linear.init n n w b =
  Ok {| Linear.in_features := n; Linear.out_features := n;
        Linear.weight := w; Linear.bias := b |}.
Proof.
  intros Hn. unfold Linear.init.
  destruct (n <? 0)%Z eqn:E; [apply Z.ltb_lt in E; lia | reflexivity].
Qed.

Lemma Dropout_init_ok (p : R) :
  (0 <= p <= 1)%R -> Dropout.init p = Ok {| Dropout.p := p; Dropout.training := true |}.
Proof.
  intros [H0 H1]. unfold Dropout.init.
  destruct (Rlt_dec p 0); [lra |].
  destruct (Rlt_dec 1 p); [lra | reflexivity].
Qed.

(** C7. For positive [d_model] and [h] (and a dropout probability that
    [nn.Dropout] accepts), constructing an attention block raises exactly
    when [d_model % h != 0]; when it succeeds, [d_k] is [d_model / h],
    and the division is exact. *)
Theorem attention_block_init_divisible (d_model h : Z) (p : R)
    (w : MultiHeadAttentionBlock.init_weights) :
  (0 < d_model)%Z -> (0 < h)%Z -> (0 <= p <= 1)%R ->
  (raises (MultiHeadAttentionBlock.init d_model h p w) <-> (d_model mod h)%Z <> 0%Z) /\
  (forall blk, MultiHeadAttentionBlock.init d_model h p w = Ok blk ->
     MultiHeadAttentionBlock.d_k blk = (d_model / h)%Z /\
     (h * MultiHeadAttentionBlock.d_k blk)%Z = d_model).
Proof.
  intros Hd Hh Hp. unfold MultiHeadAttentionBlock.init.
  destruct (h =? 0)%Z eqn:Eh; [apply Z.eqb_eq in Eh; lia |].
  destruct (d_model mod h =? 0)%Z eqn:Em; simpl.
  - apply Z.eqb_eq in Em.
    rewrite !Linear_init_ok by lia. rewrite Dropout_init_ok by exact Hp. simpl.
    split.
    + split; [intros [e He]; discriminate He | intros Hne; contradiction].
    + intros blk Hblk. injection Hblk as <-. simpl.
      split; [reflexivity |].
      pose proof (Z.div_mod d_model h ltac:(lia)). lia.
  - apply Z.eqb_neq in Em. split.
    + split; [intros _; exact Em | intros _; eexists; reflexivity].
    + intros blk Hblk. discriminate Hblk.
Qed.

Lemma attention_block_init_divisible_witness :
  (raises (MultiHeadAttentionBlock.init 512 8 (1 / 10) Sample.weights0)
     <-> (512 mod 8)%Z <> 0%Z) /\
  (forall blk, MultiHeadAttentionBlock.init 512 8 (1 / 10) Sample.weights0 = Ok blk ->
     MultiHeadAttentionBlock.d_k blk = (512 / 8)%Z /\
     (8 * MultiHeadAttentionBlock.d_k blk)%Z = 512%Z).
Proof.
  apply (attention_block_init_divisible 512 8 (1 / 10) Sample.weights0).
  - lia.
  - lia.
  - lra.
Defined.

(** ** Layer normalization *)

Lemma LayerNormalization_no_bias (eps : R) :
  LayerNormalization.init eps !! "bias" = None.
Proof.
  unfold LayerNormalization.init.
  rewrite !lookup_insert_ne by discriminate. apply lookup_empty.
Qed.

Lemma LayerNormalization_has_alpha (eps : R) :
  LayerNormalization.init eps !! "alpha" = Some (LayerNormalization.NnParameter [1%R]).
Proof.
  unfold LayerNormalization.init.
  rewrite lookup_insert_ne by discriminate. apply lookup_insert_eq.
Qed.

(** C2. On an instance built by [__init__], [forward] raises
    [AttributeError] for the attribute [bias] on every input: the
    constructor defines [alpha] and [beta], [forward] reads [alpha] and
    [bias].  No input yields the specified value. *)
Theorem layer_norm_forward_raises (eps : R) (x : tensor3) :
  LayerNormalization.forward (LayerNormalization.init eps) x = Raise (AttributeError "bias").
Proof.
  unfold LayerNormalization.forward, LayerNormalization.getattr.
  rewrite LayerNormalization_has_alpha, LayerNormalization_no_bias. reflexivity.
Qed.

(** ** Positional encoding: the forward step *)

(** C4. [forward] raises [TypeError] on every input: [requires_grad] is
    a boolean attribute of the sliced table, and calling it fails before
    the sum and the dropout are computed. *)
Theorem positional_encoding_forward_raises (self : PositionalEncoding.t)
    (keep : nat -> nat -> nat -> bool) (x : tensor3) :
  PositionalEncoding.forward self keep x = Raise (TypeError "'bool' object is not callable").
Proof. reflexivity. Qed.

(** ** Transformer.decode *)

Lemma Decoder_call_arity (self : Decoder.t) (a b c d e : pyval) :
  Decoder.call self [a; b; c; d; e] = Raise (TypeError "forward() takes 5 positional arguments").
Proof. reflexivity. Qed.

Lemma transformer_decode_four_args (self : Transformer.t) (a b c d : pyval) :
  Transformer.decode self [a; b; c; d] = Raise (TypeError "decode() takes 6 positional arguments").
Proof. reflexivity. Qed.

(** With the repository's own sub-modules the five-argument call stops
    in the positional encoding of the target. *)
Lemma transformer_decode_five_args_sample :
  Transformer.decode Sample.transformer
    [PyTensor [[[0%R; 0%R]]] false; PyIds [[0%Z]]; PyIds [[3%Z]];
     PyMask [[[[1%Z]]]]; PyMask [[[[1%Z]]]]]
  = Raise (TypeError "'bool' object is not callable").
Proof. reflexivity. Qed.

(** C3. [Transformer.decode] raises on every argument list, whatever the
    sub-modules do: it takes five arguments, so the four-argument call of
    the specification (and of [greedy_decode]) is rejected, and with five
    arguments it passes five to the decoder stack, whose [forward] takes
    four. *)
Theorem transformer_decode_raises (self : Transformer.t) (args : list pyval) :
  raises (Transformer.decode self args).
Proof.
  unfold Transformer.decode.
  destruct args as [| a0 [| a1 [| a2 [| a3 [| a4 [| a5 rest]]]]]];
    try (eexists; reflexivity).
  destruct (Transformer.tgt_embed self a2) as [t1 | e1]; simpl;
    [| eexists; reflexivity].
  destruct (Transformer.tgt_pos self t1) as [t2 | e2]; simpl;
    [| eexists; reflexivity].
  exists (TypeError "forward() takes 5 positional arguments").
  exact (Decoder_call_arity (Transformer.decoder self) a0 a1 t2 a3 a4).
Qed.

(** ** The attention routine and its mask *)

(** The value of the [masked_fill] call is dropped, so the routine
    does not depend on the mask. *)
Lemma attention_mask_ignored (query key value : tensor4) (m : mask4)
    (dropout : option (tensor4 -> tensor4)) :
  MultiHeadAttentionBlock.attention query key value (Some m) dropout
  = MultiHeadAttentionBlock.attention query key value None dropout.
Proof. reflexivity. Qed.

Lemma sample_scores_zero : ((0 * 0 + 0) / sqrt 1 = 0)%R.
Proof. unfold Rdiv. ring. Qed.

(** C1. With one query and two keys of equal score, and a mask that
    disallows the second key, the routine returns the weight 1/2 at the
    masked key: the scores fed to softmax are the original ones. *)
Theorem attention_masked_weight_sample :
  mask_eq0 Sample.mask 0 0 0 1 = true /\
  (MultiHeadAttentionBlock.attention Sample.query Sample.key Sample.value
     (Some Sample.mask) None).2 = [[[[(1 / 2)%R; (1 / 2)%R]]]].
Proof.
  split; [reflexivity |].
  rewrite attention_mask_ignored.
  cbn. rewrite sample_scores_zero, exp_0.
  repeat f_equal; lra.
Qed.

(** With the masked scores fed to softmax, the same input gives the
    masked key a weight below 1e-9. *)
Lemma attention_masked_spec_weight_sample :
  exists w0 w1 : R,
    (MultiHeadAttentionBlock.attention_masked Sample.query Sample.key Sample.value
       (Some Sample.mask) None).2 = [[[[w0; w1]]]] /\
    (0 < w1 < / 1000000000)%R.
Proof.
  eexists _, _. split.
  - cbn. rewrite sample_scores_zero, exp_0. reflexivity.
  - set (a := exp (-1000000000)).
    assert (Ha : (0 < a)%R) by apply exp_pos.
    assert (Hsmall : (a < / 1000000000)%R).
    { subst a. replace (-1000000000)%R with (- (1000000000))%R by lra.
      rewrite exp_Ropp. apply Rinv_lt_contravar.
      - pose proof (exp_pos 1000000000). nra.
      - pose proof (exp_ineq1 1000000000 ltac:(lra)). lra. }
    set (t := (/ (1 + (a + 0)))%R).
    assert (Ht : (0 < t)%R) by (apply Rinv_0_lt_compat; lra).
    assert (Hone : ((1 + (a + 0)) * t = 1)%R) by (subst t; field; lra).
    unfold Rdiv. fold t. split; nra.
Qed.

(** ** Softmax rows *)

Lemma sum_list_cons (x : R) (v : vec) : sum_list (x :: v) = (x + sum_list v)%R.
Proof. reflexivity. Qed.

Lemma sum_list_div (e : vec) (s : R) :
  sum_list ((fun x => (x / s)%R) <$> e) = (sum_list e / s)%R.
Proof.
  induction e as [| x e IH].
  - unfold sum_list, Rdiv. simpl. ring.
  - rewrite fmap_cons, !sum_list_cons, IH. unfold Rdiv. ring.
Qed.

Lemma sum_exp_nonneg (v : vec) : (0 <= sum_list (exp <$> v))%R.
Proof.
  induction v as [| x v IH].
  - unfold sum_list. simpl. lra.
  - rewrite fmap_cons, sum_list_cons. pose proof (exp_pos x). lra.
Qed.

Lemma sum_exp_pos (v : vec) : v <> [] -> (0 < sum_list (exp <$> v))%R.
Proof.
  destruct v as [| x v]; [congruence |]. intros _.
  rewrite fmap_cons, sum_list_cons.
  pose proof (exp_pos x). pose proof (sum_exp_nonneg v). lra.
Qed.

Lemma softmax_row_sum (v : vec) : v <> [] -> sum_list (softmax_row v) = 1%R.
Proof.
  intros Hv. unfold softmax_row. rewrite sum_list_div.
  pose proof (sum_exp_pos v Hv). field. lra.
Qed.

Lemma ncols_transpose (k : mat) : ncols k <> 0 -> ncols (transpose k) = length k.
Proof.
  unfold transpose. destruct (ncols k) as [| n]; [congruence |]. intros _.
  simpl. unfold column. now rewrite length_fmap.
Qed.

(** Every row of [q @ k.transpose(-2,-1)] has one entry per key. *)
Lemma matmul_transpose_row_length (q k : mat) (i : nat) (row : vec) :
  ncols k <> 0 -> matmul q (transpose k) !! i = Some row -> length row = length k.
Proof.
  intros Hk. unfold matmul. rewrite list_lookup_fmap.
  destruct (q !! i) as [qi |]; simpl; [| discriminate].
  intros [= <-]. rewrite length_fmap, length_seq. now apply ncols_transpose.
Qed.

(** Without dropout the weights are the row-wise softmax of the scores,
    and each row has one entry per key. *)
Lemma attention_row_softmax (query key value : tensor4) (mask : option mask4)
    (b h i : nat) (wb : tensor3) (wh : mat) (row : vec) :
  (forall b h (kb : tensor3) (kh : mat),
     key !! b = Some kb -> kb !! h = Some kh -> kh <> [] /\ ncols kh <> 0) ->
  (MultiHeadAttentionBlock.attention query key value mask None).2 !! b = Some wb ->
  wb !! h = Some wh -> wh !! i = Some row ->
  exists srow, srow <> [] /\ row = softmax_row srow.
Proof.
  intros Hkey Hb Hh Hi. destruct mask as [m |];
    [rewrite attention_mask_ignored in Hb |];
    unfold MultiHeadAttentionBlock.attention in Hb; cbn [snd] in Hb.
  all: rewrite list_lookup_fmap in Hb;
    apply fmap_Some in Hb as (sb & Hsb & ->);
    rewrite list_lookup_fmap in Hh;
    apply fmap_Some in Hh as (sh & Hsh & ->);
    rewrite list_lookup_fmap in Hi;
    apply fmap_Some in Hi as (srow & Hsrow & ->);
    apply lookup_zip_with_Some in Hsb as (qb & kb & -> & Hqb & Hkb);
    apply lookup_zip_with_Some in Hsh as (qh & kh & -> & Hqh & Hkh);
    rewrite list_lookup_fmap in Hsrow;
    apply fmap_Some in Hsrow as (mrow & Hmrow & ->);
    destruct (Hkey b h kb kh Hkb Hkh) as [Hne Hcols];
    apply matmul_transpose_row_length in Hmrow; [| exact Hcols];
    eexists; split; [| reflexivity];
    intros Hnil; apply fmap_nil_inv in Hnil; subst mrow;
    destruct kh; [congruence | discriminate Hmrow].
Qed.

(** C5, amended. When no dropout is passed, or the dropout module is in
    inference mode, and every key matrix has at least one key of positive
    dimension, the weights returned by the routine sum to 1 along the key
    dimension at every (batch, head, query) index, with or without a
    mask. *)
Theorem attention_weights_sum_to_one (query key value : tensor4) (mask : option mask4)
    (dropout : option (tensor4 -> tensor4)) (b h i : nat)
    (wb : tensor3) (wh : mat) (row : vec) :
  (dropout = None \/
   exists d keep, dropout = Some (Dropout.forward4 d keep) /\ Dropout.training d = false) ->
  (forall b h (kb : tensor3) (kh : mat),
     key !! b = Some kb -> kb !! h = Some kh -> kh <> [] /\ ncols kh <> 0) ->
  (MultiHeadAttentionBlock.attention query key value mask dropout).2 !! b = Some wb ->
  wb !! h = Some wh -> wh !! i = Some row ->
  sum_list row = 1%R.
Proof.
  intros Hd Hkey Hb Hh Hi.
  assert (Hnone : (MultiHeadAttentionBlock.attention query key value mask dropout).2
                  = (MultiHeadAttentionBlock.attention query key value mask None).2).
  { destruct Hd as [-> | (d & keep & -> & Ht)]; [reflexivity |].
    unfold MultiHeadAttentionBlock.attention; cbn [snd].
    unfold Dropout.forward4. rewrite Ht. reflexivity. }
  rewrite Hnone in Hb.
  destruct (attention_row_softmax query key value mask b h i wb wh row Hkey Hb Hh Hi)
    as (srow & Hne & ->).
  now apply softmax_row_sum.
Qed.

Lemma attention_weights_sum_to_one_witness :
  sum_list [(1 / 2)%R; (1 / 2)%R] = 1%R.
Proof.
  apply (attention_weights_sum_to_one Sample.query Sample.key Sample.value
           (Some Sample.mask) None 0 0 0 [[[(1 / 2)%R; (1 / 2)%R]]] [[(1 / 2)%R; (1 / 2)%R]]).
  - left. reflexivity.
  - intros [| b] [| h] kb kh Hb Hh; simpl in Hb, Hh; try discriminate.
    + injection Hb as <-. injection Hh as <-. split; discriminate.
    + injection Hb as <-. discriminate.
  - rewrite attention_mask_ignored. cbn. rewrite sample_scores_zero, exp_0.
    repeat f_equal; lra.
  - reflexivity.
  - reflexivity.
Defined.

(** C5 as stated fails in training mode: with one key, the default
    dropout probability 1/10 and the entry kept, the single weight of the
    row is 10/9. *)
Lemma attention_training_dropout_counterexample :
  exists (wb : tensor3) (wh : mat) (row : vec),
    (MultiHeadAttentionBlock.attention Sample.query Sample.key1 Sample.value1 None
       (Some (Dropout.forward4 Sample.dropout01 Sample.keep_all))).2 !! 0 = Some wb /\
    wb !! 0 = Some wh /\ wh !! 0 = Some row /\ sum_list row <> 1%R.
Proof.
  eexists _, _, _. split; [reflexivity |]. split; [reflexivity |]. split; [reflexivity |].
  cbn. unfold Dropout.entry. cbn.
  destruct (Req_dec_T (1 / 10) 1) as [H | _]; [lra |].
  replace ((0 * 0 + 0) / sqrt 1)%R with 0%R by (unfold Rdiv; ring).
  rewrite exp_0. lra.
Qed.

(** ** The attention block's forward pass *)



(** ** The greedy decoding loop *)

Section GreedyLoop.

Context {St : Type}.
Variable causal_mask : nat -> result mask4.
Variable model : Model St.
Variable source_mask : mask4.
Variable max_len : Z.
Variables (eos_idx : Z) (encoder_output : tensor3).

Let loop := greedy_loop causal_mask model source_mask max_len eos_idx encoder_output.
Let body := next_token causal_mask model source_mask encoder_output.

Lemma greedy_loop_S (fuel : nat) (decoder_input : list Z) (s : St) :
  loop (S fuel) decoder_input s =
  if decide (Z.of_nat (length decoder_input) = max_len) then Ok (Some decoder_input, s)
  else match body decoder_input s with
       | Raise e => Raise e
       | Ok (next_item, s') =>
           if decide (next_item = eos_idx)
           then Ok (Some (decoder_input ++ [next_item]), s')
           else loop fuel (decoder_input ++ [next_item]) s'
       end.
Proof.
  subst loop body. cbn [greedy_loop].
  destruct (decide (Z.of_nat (length decoder_input) = max_len)); [reflexivity |].
  unfold next_token, mbind, M_bind, lift.
  destruct (causal_mask (length decoder_input)) as [dm | e]; [| reflexivity].
  destruct (decode model encoder_output source_mask [decoder_input] dm s) as [[out s1] | e];
    [| reflexivity].
  destruct (index_last out) as [lo | e]; [| reflexivity].
  destruct (project model lo s1) as [[prob s2] | e]; [| reflexivity].
  destruct (torch_max_dim1 prob) as [nw | e]; [| reflexivity].
  destruct (item nw) as [ni | e]; [| reflexivity].
  destruct (decide (ni = eos_idx)); reflexivity.
Qed.

(** Entered with a sequence of length at most [max_len] and more fuel
    than the distance to [max_len], the loop ends, and a returned
    sequence is within the bound and ends the way the loop stops. *)
Lemma greedy_loop_bounded (fuel : nat) :
  forall (decoder_input : list Z) (s : St),
    (Z.of_nat (length decoder_input) <= max_len)%Z ->
    (Z.to_nat max_len - length decoder_input < fuel)%nat ->
    match loop fuel decoder_input s with
    | Raise _ => True
    | Ok (None, _) => False
    | Ok (Some seq, _) =>
        (Z.of_nat (length seq) <= max_len)%Z /\
        (Z.of_nat (length seq) = max_len \/ last seq = Some eos_idx)
    end.
Proof.
  induction fuel as [| fuel IH]; intros di s Hlen Hfuel; [lia |].
  rewrite greedy_loop_S.
  destruct (decide (Z.of_nat (length di) = max_len)) as [Heq | Hne].
  - split; [lia | left; exact Heq].
  - destruct (body di s) as [[ni s'] | e]; [| exact I].
    destruct (decide (ni = eos_idx)) as [-> | Hni].
    + rewrite length_app. simpl. split; [lia |]. right. apply last_snoc.
    + apply IH; rewrite length_app; simpl; lia.
Qed.

(** More fuel does not change an outcome that was reached. *)
Lemma greedy_loop_fuel (fuel : nat) :
  forall (fuel' : nat) (decoder_input : list Z) (s : St),
    (fuel <= fuel')%nat ->
    ~ out_of_fuel (loop fuel decoder_input s) ->
    loop fuel' decoder_input s = loop fuel decoder_input s.
Proof.
  induction fuel as [| fuel IH]; intros fuel' di s Hle Hrun.
  - exfalso. apply Hrun. exists s. reflexivity.
  - destruct fuel' as [| fuel']; [lia |].
    rewrite greedy_loop_S in Hrun. rewrite !greedy_loop_S.
    destruct (decide (Z.of_nat (length di) = max_len)); [reflexivity |].
    destruct (body di s) as [[ni s'] | e]; [| reflexivity].
    destruct (decide (ni = eos_idx)); [reflexivity |].
    apply IH; [lia | exact Hrun].
Qed.

(** While no end-of-sequence id is in the sequence from index [k] on, the
    loop only appends, and from index [k] on the end-of-sequence id can
    only be the last element of what it returns. *)
Lemma greedy_loop_eos (fuel : nat) :
  forall (k : nat) (decoder_input seq : list Z) (s s' : St),
    (k <= length decoder_input)%nat ->
    Forall (fun w => w <> eos_idx) (drop k decoder_input) ->
    loop fuel decoder_input s = Ok (Some seq, s') ->
    (exists ws, seq = decoder_input ++ ws) /\
    (forall i, (k <= i)%nat -> seq !! i = Some eos_idx -> S i = length seq).
Proof.
  induction fuel as [| fuel IH]; intros k di seq s s' Hk Hdi Hrun; [discriminate Hrun |].
  assert (Hold : forall i, (k <= i)%nat -> di !! i = Some eos_idx -> False).
  { intros i Hi Hlook. rewrite Forall_lookup in Hdi.
    apply (Hdi (i - k)%nat eos_idx); [| reflexivity].
    rewrite lookup_drop. replace (k + (i - k))%nat with i by lia. exact Hlook. }
  rewrite greedy_loop_S in Hrun.
  destruct (decide (Z.of_nat (length di) = max_len)).
  - injection Hrun as <- <-. split; [exists []; now rewrite app_nil_r |].
    intros i Hi Hlook. now destruct (Hold i Hi Hlook).
  - destruct (body di s) as [[ni s1] | e]; [| discriminate Hrun].
    destruct (decide (ni = eos_idx)) as [-> | Hni].
    + injection Hrun as <- <-. split; [eexists; reflexivity |].
      intros i Hi Hlook. rewrite length_app. simpl.
      destruct (decide (i < length di)%nat) as [Hlt | Hge].
      * rewrite lookup_app_l in Hlook by exact Hlt. now destruct (Hold i Hi Hlook).
      * apply lookup_lt_Some in Hlook. rewrite length_app in Hlook. simpl in Hlook. lia.
    + destruct (IH k (di ++ [ni]) seq s1 s') as [[ws ->] Hlast].
      * rewrite length_app. lia.
      * rewrite drop_app_le by exact Hk.
        apply Forall_app. split; [exact Hdi | now constructor].
      * exact Hrun.
      * split; [| exact Hlast]. exists (ni :: ws). now rewrite <- app_assoc.
Qed.

(** The loop head is entered once for each token that is appended, and
    once more when it returns at the head: a run that returns [seq] does so
    with one unit of fuel more than the number of appended tokens. *)
Lemma greedy_loop_least_fuel (fuel : nat) :
  forall (decoder_input seq : list Z) (s s' : St),
    loop fuel decoder_input s = Ok (Some seq, s') ->
    loop (S (length seq - length decoder_input)) decoder_input s = Ok (Some seq, s').
Proof.
  induction fuel as [| fuel IH]; intros di seq s s' Hrun; [discriminate Hrun |].
  rewrite greedy_loop_S in Hrun.
  destruct (decide (Z.of_nat (length di) = max_len)) as [Heq | Hne].
  - rewrite greedy_loop_S. rewrite decide_True by exact Heq. exact Hrun.
  - destruct (body di s) as [[ni s1] | e] eqn:Hb; [| discriminate Hrun].
    destruct (decide (ni = eos_idx)) as [-> | Hni].
    + rewrite greedy_loop_S. rewrite decide_False by exact Hne. rewrite Hb.
      rewrite decide_True by reflexivity. exact Hrun.
    + pose proof (IH _ _ _ _ Hrun) as IH'.
      destruct (greedy_loop_eos fuel (length (di ++ [ni])) (di ++ [ni]) seq s1 s')
        as [[ws Hws] _]; [lia | rewrite drop_all; constructor | exact Hrun |].
      assert (Hlen : (length seq - length di = S (length seq - length (di ++ [ni])))%nat).
      { rewrite Hws, !length_app. simpl. lia. }
      rewrite Hlen. rewrite greedy_loop_S. rewrite decide_False by exact Hne. rewrite Hb.
      rewrite decide_False by exact Hni. exact IH'.
Qed.

End GreedyLoop.


(** C8. For [max_len >= 1] and every model, tokenizer and input, the
    loop ends within [max_len] entries of its head: with that much fuel
    the run returns or raises, and more fuel gives the same outcome.  A
    returned sequence has at most [max_len] elements and either has
    exactly [max_len] or ends with the end-of-sequence id.  The loop stops
    as soon as the end-of-sequence id is produced: among the generated
    tokens (index 1 on) that id is at no position but the last one, and
    the loop head is entered no more than once per element of the
    returned sequence. *)
Theorem greedy_decode_terminates {St : Type} (causal_mask : nat -> result mask4)
    (model : Model St) (source : list (list Z)) (source_mask : mask4)
    (tokenizer_tgt : Tokenizer) (max_len : Z) (s : St) :
  (1 <= max_len)%Z ->
  (forall fuel, (Z.to_nat max_len <= fuel)%nat ->
     greedy_decode causal_mask model source source_mask tokenizer_tgt max_len fuel s
     = greedy_decode causal_mask model source source_mask tokenizer_tgt max_len
         (Z.to_nat max_len) s) /\
  match greedy_decode causal_mask model source source_mask tokenizer_tgt max_len
          (Z.to_nat max_len) s with
  | Raise _ => True
  | Ok (None, _) => False
  | Ok (Some seq, s') =>
      (Z.of_nat (length seq) <= max_len)%Z /\
      (Z.of_nat (length seq) = max_len \/
       exists eos_idx, token_to_ids tokenizer_tgt "[EOS]" = Ok eos_idx /\
                       last seq = Some eos_idx) /\
      (forall eos_idx i,
         token_to_ids tokenizer_tgt "[EOS]" = Ok eos_idx ->
         (1 <= i)%nat -> seq !! i = Some eos_idx -> S i = length seq) /\
      greedy_decode causal_mask model source source_mask tokenizer_tgt max_len
        (length seq) s = Ok (Some seq, s')
  end.
Proof.
  intros Hmax. unfold greedy_decode, mbind, M_bind, lift.
  destruct (token_to_ids tokenizer_tgt "[SOS]") as [sos | e]; [| split; [reflexivity | exact I]].
  destruct (token_to_ids tokenizer_tgt "[EOS]") as [eos | e]; [| split; [reflexivity | exact I]].
  destruct (encode model source source_mask s) as [[eo s1] | e];
    [| split; [reflexivity | exact I]].
  pose proof (greedy_loop_bounded causal_mask model source_mask max_len eos eo
                (Z.to_nat max_len) [float32_round sos] s1) as Hb.
  simpl in Hb. specialize (Hb ltac:(lia) ltac:(lia)).
  split.
  - intros fuel Hfuel. apply greedy_loop_fuel; [exact Hfuel |].
    intros [s2 Hs2]. rewrite Hs2 in Hb. exact Hb.
  - destruct (greedy_loop causal_mask model source_mask max_len eos eo
                (Z.to_nat max_len) [float32_round sos] s1)
      as [[[seq |] s2] | e] eqn:Hrun; [| exact Hb | exact I].
    destruct Hb as [Hlen Hend].
    destruct (greedy_loop_eos causal_mask model source_mask max_len eos eo
                (Z.to_nat max_len) 1 [float32_round sos] seq s1 s2)
      as [[ws Hws] Hstop]; [simpl; lia | constructor | exact Hrun |].
    split; [exact Hlen |]. split; [| split].
    + destruct Hend as [Hfull | Hlast]; [left; exact Hfull |].
      right. exists eos. split; [reflexivity | exact Hlast].
    + intros eos' i Heos. injection Heos as <-. apply Hstop.
    + pose proof (greedy_loop_least_fuel causal_mask model source_mask max_len eos eo
                    _ _ _ _ _ Hrun) as Hleast.
      replace (S (length seq - length [float32_round sos])) with (length seq) in Hleast
        by (rewrite Hws; simpl; lia).
      exact Hleast.
Qed.

Lemma greedy_decode_terminates_witness :
  (forall fuel, (Z.to_nat 3 <= fuel)%nat ->
     greedy_decode Sample.causal_mask Sample.model [[5%Z]] [[[[1%Z]]]] Sample.tokenizer 3 fuel tt
     = greedy_decode Sample.causal_mask Sample.model [[5%Z]] [[[[1%Z]]]] Sample.tokenizer 3
         (Z.to_nat 3) tt) /\
  match greedy_decode Sample.causal_mask Sample.model [[5%Z]] [[[[1%Z]]]] Sample.tokenizer 3
          (Z.to_nat 3) tt with
  | Raise _ => True
  | Ok (None, _) => False
  | Ok (Some seq, s') =>
      (Z.of_nat (length seq) <= 3)%Z /\
      (Z.of_nat (length seq) = 3%Z \/
       exists eos_idx, token_to_ids Sample.tokenizer "[EOS]" = Ok eos_idx /\
                       last seq = Some eos_idx) /\
      (forall eos_idx i,
         token_to_ids Sample.tokenizer "[EOS]" = Ok eos_idx ->
         (1 <= i)%nat -> seq !! i = Some eos_idx -> S i = length seq) /\
      greedy_decode Sample.causal_mask Sample.model [[5%Z]] [[[[1%Z]]]] Sample.tokenizer 3
        (length seq) tt = Ok (Some seq, s')
  end.
Proof.
  apply (greedy_decode_terminates Sample.causal_mask Sample.model [[5%Z]] [[[[1%Z]]]]
           Sample.tokenizer 3 tt).
  lia.
Defined.




(** ** The positional table *)

Lemma bnth_lookup {A} (d : A) (l : list A) (i : nat) (x : A) :
  l !! i = Some x -> bnth d l i = x.
Proof.
  intros Hi. unfold bnth. destruct l as [| a [| b l]].
  - discriminate Hi.
  - destruct i as [| i]; simpl in Hi; [now injection Hi | discriminate Hi].
  - rewrite nth_lookup, Hi. reflexivity.
Qed.

Lemma arange_even_lookup (n i : nat) :
  (2 * i < n)%nat -> arange 0 n 2 !! i = Some (0 + i * 2)%nat.
Proof.
  intros Hi. unfold arange. rewrite list_lookup_fmap.
  rewrite lookup_seq_lt; [reflexivity |].
  apply Nat.div_le_lower_bound; lia.
Qed.

Lemma setitem_cols_lookup (start cols vcols : nat) (t value t' : mat) (p : nat)
    (row vrow : vec) :
  setitem_cols start cols vcols t value = Ok t' ->
  t !! p = Some row -> value !! p = Some vrow ->
  t' !! p = Some (imap (fun j x =>
                          if decide (start <= j /\ (j - start) mod 2 = 0)%nat
                          then bnth 0%R vrow ((j - start) / 2)
                          else x) row).
Proof.
  unfold setitem_cols. intros Hset Hrow Hvrow.
  destruct (decide _) as [_ |] in Hset; [| discriminate Hset].
  injection Hset as <-.
  rewrite lookup_zip_with, Hrow, Hvrow. reflexivity.
Qed.

Lemma div_term_power (i : nat) (d : Z) :
  d <> 0%Z ->
  exp (INR (0 + i * 2) * (- ln 10000 / IZR d)) = (/ Rpower 10000 (2 * INR i / IZR d))%R.
Proof.
  intros Hd. unfold Rpower. rewrite <- exp_Ropp. f_equal.
  rewrite plus_INR, mult_INR. simpl.
  assert (IZR d <> 0%R) by (intros H0; apply eq_IZR_R0 in H0; contradiction).
  field. assumption.
Qed.

Lemma even_index (i : nat) :
  ((2 * i - 0) mod 2 = 0 /\ (2 * i - 0) / 2 = i /\
   ~ (1 <= 2 * i /\ (2 * i - 1) mod 2 = 0))%nat.
Proof.
  rewrite Nat.sub_0_r, (Nat.mul_comm 2 i), Nat.Div0.mod_mul, Nat.div_mul by lia.
  repeat split. intros [Hpos Hmod].
  replace (i * 2 - 1)%nat with (1 + (i - 1) * 2)%nat in Hmod by lia.
  rewrite Nat.Div0.mod_add in Hmod. discriminate Hmod.
Qed.

Lemma odd_index (i : nat) :
  ((2 * i + 1 - 1) mod 2 = 0 /\ (2 * i + 1 - 1) / 2 = i)%nat.
Proof.
  replace (2 * i + 1 - 1)%nat with (i * 2)%nat by lia.
  rewrite Nat.Div0.mod_mul, Nat.div_mul by lia. now split.
Qed.

(** Whenever construction returns, row [p] of the table holds the sine at
    the even and the cosine at the odd feature indices. *)
Lemma positional_table_row (d_model seq_len : Z) (dropout : R)
    (self : PositionalEncoding.t) (p i : nat) :
  PositionalEncoding.init d_model seq_len dropout = Ok self ->
  (Z.of_nat p < seq_len)%Z ->
  exists (table : mat) (row : vec),
    PositionalEncoding.pe self = [table] /\ table !! p = Some row /\
    ((Z.of_nat (2 * i) < d_model)%Z ->
       row !! (2 * i)%nat = Some (sin (INR p / Rpower 10000 (2 * INR i / IZR d_model)))) /\
    ((Z.of_nat (2 * i + 1) < d_model)%Z ->
       row !! (2 * i + 1)%nat = Some (cos (INR p / Rpower 10000 (2 * INR i / IZR d_model)))).
Proof.
  intros Hinit Hp. unfold PositionalEncoding.init in Hinit.
  destruct (Dropout.init dropout) as [dr | e]; [| discriminate Hinit].
  cbn [mbind result_bind] in Hinit.
  unfold torch_zeros, py_truediv in Hinit.
  destruct ((seq_len <? 0) || (d_model <? 0))%Z eqn:Hneg; [discriminate Hinit |].
  destruct (d_model =? 0)%Z eqn:Hd0; [discriminate Hinit |].
  cbn [mbind result_bind] in Hinit.
  apply Z.eqb_neq in Hd0.
  set (div_term := (fun k => exp (INR k * (- ln 10000 / IZR d_model)))
                     <$> arange 0 (Z.to_nat d_model) 2) in *.
  set (angle := (fun pos : vec => (fun dv => (bnth 0 pos 0 * dv)%R) <$> div_term)
                  <$> ((fun p => [INR p]) <$> seq 0 (Z.to_nat seq_len))) in *.
  destruct (setitem_cols 0 _ _ _ _) as [pe1 | e] eqn:H1 in Hinit; [| discriminate Hinit].
  cbn [mbind result_bind] in Hinit.
  destruct (setitem_cols 1 _ _ _ _) as [pe2 | e] eqn:H2 in Hinit; [| discriminate Hinit].
  cbn [mbind result_bind] in Hinit.
  injection Hinit as <-. cbn [PositionalEncoding.pe].
  assert (Hang : angle !! p = Some ((fun dv => (INR p * dv)%R) <$> div_term)).
  { subst angle. rewrite !list_lookup_fmap, lookup_seq_lt by lia. reflexivity. }
  assert (Hrow0 : replicate (Z.to_nat seq_len) (replicate (Z.to_nat d_model) 0%R) !! p
                  = Some (replicate (Z.to_nat d_model) 0%R))
    by (apply lookup_replicate_2; lia).
  eapply setitem_cols_lookup in H1;
    [| exact Hrow0 | rewrite list_lookup_fmap, Hang; reflexivity].
  eapply setitem_cols_lookup in H2;
    [| exact H1 | rewrite list_lookup_fmap, Hang; reflexivity].
  eexists _, _. split; [reflexivity |]. split; [exact H2 |].
  split; intros Hi.
  - rewrite !list_lookup_imap, lookup_replicate_2 by lia. cbn [fmap option_fmap option_map].
    destruct (even_index i) as (Hm & Hq & Hodd).
    destruct (decide (1 <= 2 * i /\ (2 * i - 1) mod 2 = 0)%nat) as [Hc | _];
      [contradiction |].
    destruct (decide (0 <= 2 * i /\ (2 * i - 0) mod 2 = 0)%nat) as [_ | Hc];
      [| exfalso; apply Hc; split; [lia | exact Hm]].
    rewrite Hq. f_equal. apply bnth_lookup.
    subst div_term. rewrite !list_lookup_fmap, arange_even_lookup by lia.
    cbn [fmap option_fmap option_map]. rewrite div_term_power by exact Hd0. reflexivity.
  - rewrite !list_lookup_imap, lookup_replicate_2 by lia. cbn [fmap option_fmap option_map].
    destruct (odd_index i) as (Hm & Hq).
    destruct (decide (1 <= 2 * i + 1 /\ (2 * i + 1 - 1) mod 2 = 0)%nat) as [_ | Hc];
      [| exfalso; apply Hc; split; [lia | exact Hm]].
    rewrite Hq. f_equal. apply bnth_lookup.
    subst div_term. rewrite !list_lookup_fmap, arange_even_lookup by lia.
    cbn [fmap option_fmap option_map]. rewrite div_term_power by exact Hd0. reflexivity.
Qed.

Lemma arange_even_lengths (k : nat) :
  (0 < k)%nat -> length (arange 0 (2 * k) 2) = k /\ length (arange 1 (2 * k) 2) = k.
Proof.
  intros Hk. unfold arange. rewrite !length_fmap, !length_seq. split.
  - symmetry. apply (Nat.div_unique _ 2 k 1); lia.
  - symmetry. apply (Nat.div_unique _ 2 k 0); lia.
Qed.

(** Construction succeeds for every positive even [d_model]. *)
Lemma positional_encoding_init_succeeds (d_model seq_len : Z) (dropout : R) :
  (0 <= dropout <= 1)%R -> (0 <= seq_len)%Z -> (0 < d_model)%Z -> (d_model mod 2 = 0)%Z ->
  exists self, PositionalEncoding.init d_model seq_len dropout = Ok self.
Proof.
  intros Hp Hs Hd Heven. unfold PositionalEncoding.init.
  rewrite Dropout_init_ok by exact Hp. cbn [mbind result_bind].
  unfold torch_zeros, py_truediv.
  destruct ((seq_len <? 0) || (d_model <? 0))%Z eqn:Hneg.
  { apply orb_true_iff in Hneg as [H | H]; apply Z.ltb_lt in H; lia. }
  destruct (d_model =? 0)%Z eqn:Hd0; [apply Z.eqb_eq in Hd0; lia |].
  cbn [mbind result_bind].
  assert (Hk : exists k, (0 < k)%nat /\ Z.to_nat d_model = (2 * k)%nat).
  { exists (Z.to_nat (d_model / 2)).
    pose proof (Z.div_mod d_model 2 ltac:(lia)). split; lia. }
  destruct Hk as (k & Hk & ->).
  destruct (arange_even_lengths k Hk) as [L0 L1].
  unfold setitem_cols. rewrite !length_fmap, L0, L1.
  destruct (decide (k = k \/ k = 1%nat)) as [_ | Hc]; [| exfalso; apply Hc; now left].
  cbn [mbind result_bind]. eexists. reflexivity.
Qed.

(** For an odd [d_model] of at least 3 the second assignment has one
    column fewer than the value assigned, and construction raises. *)
Lemma positional_encoding_init_odd_sample :
  PositionalEncoding.init 3 1 (1 / 10)
  = Raise (RuntimeError "shape mismatch: value tensor cannot be broadcast to indexing result").
Proof.
  unfold PositionalEncoding.init.
  rewrite Dropout_init_ok by lra. reflexivity.
Qed.

(** C9. Not every configuration has a table: for an odd [d_model] of at
    least 3 the constructor raises, as the sample above shows.
    Whenever the constructor returns, the table has one row per position,
    and row [p] holds [sin(p / 10000^(2i/d_model))] at feature index [2i]
    and [cos(p / 10000^(2i/d_model))] at feature index [2i+1]; the
    constructor does return for every positive even [d_model], a
    [seq_len] that is not negative and a dropout probability in [0, 1].
    The table is a function of the configuration. *)
Theorem positional_table_entries (d_model seq_len : Z) (dropout : R) :
  (forall (self : PositionalEncoding.t) (p i : nat),
     PositionalEncoding.init d_model seq_len dropout = Ok self ->
     (Z.of_nat p < seq_len)%Z ->
     exists (table : mat) (row : vec),
       PositionalEncoding.pe self = [table] /\ table !! p = Some row /\
       ((Z.of_nat (2 * i) < d_model)%Z ->
          row !! (2 * i)%nat
          = Some (sin (INR p / Rpower 10000 (2 * INR i / IZR d_model)))) /\
       ((Z.of_nat (2 * i + 1) < d_model)%Z ->
          row !! (2 * i + 1)%nat
          = Some (cos (INR p / Rpower 10000 (2 * INR i / IZR d_model))))) /\
  ((0 <= dropout <= 1)%R -> (0 <= seq_len)%Z -> (0 < d_model)%Z -> (d_model mod 2 = 0)%Z ->
   exists self, PositionalEncoding.init d_model seq_len dropout = Ok self).
Proof.
  split.
  - intros self p i. apply positional_table_row.
  - apply positional_encoding_init_succeeds.
Qed.

Lemma positional_table_entries_witness :
  exists (self : PositionalEncoding.t) (table : mat) (row : vec),
    PositionalEncoding.init 4 3 (1 / 10) = Ok self /\
    PositionalEncoding.pe self = [table] /\ table !! 1%nat = Some row /\
    row !! 2%nat = Some (sin (INR 1 / Rpower 10000 (2 * INR 1 / IZR 4))) /\
    row !! 3%nat = Some (cos (INR 1 / Rpower 10000 (2 * INR 1 / IZR 4))).
Proof.
  destruct (positional_table_entries 4 3 (1 / 10)) as [Hrows Hok].
  destruct Hok as [self Hself]; [lra | lia | lia | reflexivity |].
  destruct (Hrows self 1%nat 1%nat Hself ltac:(lia)) as (table & row & Hpe & Hrow & Hs & Hc).
  exists self, table, row.
  split; [exact Hself |]. split; [exact Hpe |]. split; [exact Hrow |].
  split; [apply Hs; lia | apply Hc; lia].
Defined.

(** * Further properties of model.py and train.py *)

(** ** The error monad on lists *)

Lemma mapM_result_ok {A B} (f : A -> result B) (g : A -> B) (l : list A) :
  Forall (fun x => f x = Ok (g x)) l -> mapM f l = Ok (g <$> l).
Proof.
  induction 1 as [| x l Hx _ IH]; [reflexivity |].
  cbn [mapM]. rewrite Hx. cbn [mbind result_bind]. rewrite IH. reflexivity.
Qed.

Lemma mapM_result_raise {A B} (f : A -> result B) (e : exn) (l : list A) :
  Forall (fun x => (exists y, f x = Ok y) \/ f x = Raise e) l ->
  Exists (fun x => f x = Raise e) l ->
  mapM f l = Raise e.
Proof.
  induction 1 as [| x l Hx Hall IH]; intros Hex; [inversion Hex |].
  cbn [mapM]. destruct Hx as [[y Hy] | Hx].
  - rewrite Hy. cbn [mbind result_bind].
    inversion Hex as [? ? H0 | ? ? H0]; subst; [congruence |].
    rewrite (IH H0). reflexivity.
  - rewrite Hx. reflexivity.
Qed.

Lemma mapM_result_length {A B} (f : A -> result B) (l : list A) (k : list B) :
  mapM f l = Ok k -> Forall2 (fun x y => f x = Ok y) l k.
Proof.
  revert k. induction l as [| x l IH]; intros k Hk; cbn [mapM] in Hk.
  - injection Hk as <-. constructor.
  - destruct (f x) as [y | e] eqn:Hy; [| discriminate Hk].
    cbn [mbind result_bind] in Hk.
    destruct (mapM f l) as [k' | e]; [| discriminate Hk].
    injection Hk as <-. constructor; [exact Hy | now apply IH].
Qed.

(** ** InputEmbedding *)

Lemma lookup_row_in_range (self : InputEmbedding.t) (id : Z) :
  length (InputEmbedding.embedding self) = Z.to_nat (InputEmbedding.vocab_size self) ->
  (0 <= id < InputEmbedding.vocab_size self)%Z ->
  InputEmbedding.lookup_row self id =
  Ok ((fun v => (v * sqrt (IZR (InputEmbedding.d_model self)))%R)
        <$> nth (Z.to_nat id) (InputEmbedding.embedding self) []).
Proof.
  intros Hlen Hid. unfold InputEmbedding.lookup_row.
  destruct (0 <=? id)%Z eqn:H0; [| apply Z.leb_gt in H0; lia].
  destruct (id <? InputEmbedding.vocab_size self)%Z eqn:H1; [| apply Z.ltb_ge in H1; lia].
  cbn [andb].
  destruct (lookup_lt_is_Some_2 (InputEmbedding.embedding self) (Z.to_nat id)) as [row Hrow];
    [lia |].
  rewrite Hrow, nth_lookup, Hrow. reflexivity.
Qed.

Lemma lookup_row_out_of_range (self : InputEmbedding.t) (id : Z) :
  ~ (0 <= id < InputEmbedding.vocab_size self)%Z ->
  InputEmbedding.lookup_row self id = Raise (IndexError "index out of range in self").
Proof.
  intros Hid. unfold InputEmbedding.lookup_row.
  destruct (0 <=? id)%Z eqn:H0; [| reflexivity].
  destruct (id <? InputEmbedding.vocab_size self)%Z eqn:H1; [| reflexivity].
  apply Z.leb_le in H0. apply Z.ltb_lt in H1. lia.
Qed.

(** X1. When every id lies in [0, vocab_size), the embedding returns, for
    each id of each sequence, the row of that id scaled by
    [sqrt(d_model)]: batch size and sequence lengths are those of the
    input. *)
Theorem input_embedding_forward_rows (self : InputEmbedding.t) (x : list (list Z)) :
  length (InputEmbedding.embedding self) = Z.to_nat (InputEmbedding.vocab_size self) ->
  Forall (Forall (fun id => (0 <= id < InputEmbedding.vocab_size self)%Z)) x ->
  InputEmbedding.forward self x =
  Ok ((fun ids : list Z =>
         (fun id => (fun v => (v * sqrt (IZR (InputEmbedding.d_model self)))%R)
                      <$> nth (Z.to_nat id) (InputEmbedding.embedding self) []) <$> ids)
        <$> x).
Proof.
  intros Hlen Hx. unfold InputEmbedding.forward.
  apply mapM_result_ok. eapply Forall_impl; [exact Hx |].
  intros ids Hids. cbn beta. apply mapM_result_ok.
  eapply Forall_impl; [exact Hids |].
  intros id Hid. now apply lookup_row_in_range.
Qed.

Lemma input_embedding_forward_rows_witness :
  InputEmbedding.forward Sample.tgt_embedding [[3%Z; 0%Z]] =
  Ok ((fun ids : list Z =>
         (fun id => (fun v => (v * sqrt (IZR (InputEmbedding.d_model Sample.tgt_embedding)))%R)
                      <$> nth (Z.to_nat id) (InputEmbedding.embedding Sample.tgt_embedding) [])
           <$> ids)
        <$> [[3%Z; 0%Z]]).
Proof.
  apply (input_embedding_forward_rows Sample.tgt_embedding [[3%Z; 0%Z]]).
  - reflexivity.
  - repeat constructor; simpl; lia.
Defined.

(** X2. When some id of the batch lies outside [0, vocab_size), the
    embedding raises [IndexError]. *)
Theorem input_embedding_forward_out_of_range (self : InputEmbedding.t) (x : list (list Z)) :
  length (InputEmbedding.embedding self) = Z.to_nat (InputEmbedding.vocab_size self) ->
  Exists (Exists (fun id => ~ (0 <= id < InputEmbedding.vocab_size self)%Z)) x ->
  InputEmbedding.forward self x = Raise (IndexError "index out of range in self").
Proof.
  intros Hlen Hx. unfold InputEmbedding.forward.
  assert (Hrow : forall ids : list Z,
             (exists y, mapM (InputEmbedding.lookup_row self) ids = Ok y) \/
             mapM (InputEmbedding.lookup_row self) ids
             = Raise (IndexError "index out of range in self")).
  { induction ids as [| id ids IH]; [left; eexists; reflexivity |].
    cbn [mapM].
    destruct (decide (0 <= id < InputEmbedding.vocab_size self)%Z) as [Hin | Hout].
    - rewrite lookup_row_in_range by assumption. cbn [mbind result_bind].
      destruct IH as [[y ->] | ->]; [left; eexists; reflexivity | right; reflexivity].
    - rewrite lookup_row_out_of_range by assumption. right. reflexivity. }
  apply mapM_result_raise.
  - apply Forall_forall. intros ids _. apply Hrow.
  - eapply Exists_impl; [exact Hx |]. intros ids Hids. cbn beta.
    apply mapM_result_raise.
    + apply Forall_forall. intros id _.
      destruct (decide (0 <= id < InputEmbedding.vocab_size self)%Z) as [Hin | Hout].
      * left. eexists. now apply lookup_row_in_range.
      * right. now apply lookup_row_out_of_range.
    + eapply Exists_impl; [exact Hids |]. intros id Hid. cbn beta.
      now apply lookup_row_out_of_range.
Qed.

Lemma input_embedding_forward_out_of_range_witness :
  InputEmbedding.forward Sample.tgt_embedding [[3%Z; 4%Z]]
  = Raise (IndexError "index out of range in self").
Proof.
  apply (input_embedding_forward_out_of_range Sample.tgt_embedding [[3%Z; 4%Z]]).
  - reflexivity.
  - constructor. apply Exists_cons_tl. constructor. simpl. lia.
Defined.

(** ** Residual connections and the encoder and decoder stacks *)

Lemma LayerNormalization_forward_init (eps : R) (x : tensor3) :
  LayerNormalization.forward (LayerNormalization.init eps) x = Raise (AttributeError "bias").
Proof.
  unfold LayerNormalization.forward, LayerNormalization.getattr.
  rewrite LayerNormalization_has_alpha, LayerNormalization_no_bias. reflexivity.
Qed.

Lemma ResidualConnection_init_norm (p : R) (rc : ResidualConnection.t) :
  ResidualConnection.init p = Ok rc ->
  ResidualConnection.norm rc = LayerNormalization.init LayerNormalization.default_eps.
Proof.
  unfold ResidualConnection.init. destruct (Dropout.init p) as [dr | e]; [| discriminate].
  intros [= <-]. reflexivity.
Qed.

Lemma ResidualConnection_init_ok (p : R) :
  (0 <= p <= 1)%R ->
  ResidualConnection.init p =
  Ok {| ResidualConnection.dropout := {| Dropout.p := p; Dropout.training := true |};
        ResidualConnection.norm := LayerNormalization.init LayerNormalization.default_eps |}.
Proof.
  intros Hp. unfold ResidualConnection.init. rewrite Dropout_init_ok by exact Hp. reflexivity.
Qed.

(** The failure comes from the normalization alone. *)
Lemma ResidualConnection_forward_norm {A : Type} (eps : R) (rc : ResidualConnection.t)
    (keep : nat -> nat -> nat -> bool) (x : tensor3)
    (sublayer : tensor3 -> result (tensor3 * A)) :
  ResidualConnection.norm rc = LayerNormalization.init eps ->
  ResidualConnection.forward rc keep x sublayer = Raise (AttributeError "bias").
Proof.
  intros Hnorm. unfold ResidualConnection.forward.
  rewrite Hnorm, LayerNormalization_forward_init. reflexivity.
Qed.

(** X3. A residual connection built by its constructor raises
    [AttributeError] for [bias] on every input, whatever the sublayer:
    the normalization runs first and fails, so the sublayer's result
    never enters. *)
Theorem residual_connection_forward_raises {A : Type} (p : R) (rc : ResidualConnection.t)
    (keep : nat -> nat -> nat -> bool) (x : tensor3)
    (sublayer : tensor3 -> result (tensor3 * A)) :
  ResidualConnection.init p = Ok rc ->
  ResidualConnection.forward rc keep x sublayer = Raise (AttributeError "bias").
Proof.
  unfold ResidualConnection.init. intros Hrc.
  apply result_bind_ok in Hrc as (dr & _ & Hrc). injection Hrc as <-.
  unfold ResidualConnection.forward. cbn [ResidualConnection.norm].
  rewrite LayerNormalization_forward_init. reflexivity.
Qed.

Lemma residual_connection_forward_raises_witness :
  ResidualConnection.forward Fixture.residual Fixture.no_draws3 Sample.x1
    (fun y => Ok (y, tt))
  = Raise (AttributeError "bias").
Proof.
  apply (residual_connection_forward_raises (1 / 10) Fixture.residual).
  apply ResidualConnection_init_ok. lra.
Defined.

Lemma mapM_residual_init (p : R) (n : nat) (rcs : list ResidualConnection.t) :
  mapM (fun _ : nat => ResidualConnection.init p) (seq 0 n) = Ok rcs ->
  length rcs = n /\ Forall (fun rc => ResidualConnection.init p = Ok rc) rcs.
Proof.
  intros H. apply mapM_result_length in H.
  split.
  - apply Forall2_length in H. rewrite length_seq in H. lia.
  - revert H. generalize (seq 0 n). intros l H.
    induction H; constructor; assumption.
Qed.

Lemma EncoderBlock_forward_raises (a : MultiHeadAttentionBlock.t) (f : FeedForwardBlock.t)
    (p : R) (blk : EncoderBlock.t) (d : EncoderBlock.draws) (x : tensor3)
    (mask : option mask4) :
  EncoderBlock.init a f p = Ok blk ->
  EncoderBlock.forward blk d x mask = Raise (AttributeError "bias").
Proof.
  unfold EncoderBlock.init. destruct (Dropout.init p) as [dr | e]; [| discriminate].
  cbn [mbind result_bind].
  destruct (mapM _ (seq 0 2)) as [rcs | e] eqn:Hrcs; [| discriminate].
  cbn [mbind result_bind]. intros [= <-].
  apply mapM_residual_init in Hrcs as [Hlen Hall].
  destruct rcs as [| rc0 rcs]; [discriminate Hlen |].
  apply Forall_cons in Hall as [H0 _].
  unfold EncoderBlock.forward. cbn.
  now rewrite (ResidualConnection_forward_norm LayerNormalization.default_eps rc0)
    by (now apply (ResidualConnection_init_norm p)).
Qed.

Lemma EncoderBlock_init_ok (a : MultiHeadAttentionBlock.t) (f : FeedForwardBlock.t) (p : R) :
  (0 <= p <= 1)%R ->
  EncoderBlock.init a f p =
  Ok {| EncoderBlock.self_attention_block := a;
        EncoderBlock.feed_forward_block := f;
        EncoderBlock.dropout := {| Dropout.p := p; Dropout.training := true |};
        EncoderBlock.residual_connection :=
          replicate 2 {| ResidualConnection.dropout :=
                           {| Dropout.p := p; Dropout.training := true |};
                         ResidualConnection.norm :=
                           LayerNormalization.init LayerNormalization.default_eps |} |}.
Proof.
  intros Hp. unfold EncoderBlock.init. rewrite Dropout_init_ok by exact Hp.
  cbn. rewrite !ResidualConnection_init_ok by exact Hp. reflexivity.
Qed.

(** X4. An encoder whose blocks were built by the block constructor
    raises [AttributeError] for [bias] on every input and for every number
    of blocks: with no block the final normalization fails, otherwise the
    first residual connection of the first block does. *)
Theorem encoder_forward_raises (layers : list EncoderBlock.t)
    (d : nat -> EncoderBlock.draws) (x : tensor3) (mask : option mask4) :
  Forall (fun l => exists a f p, EncoderBlock.init a f p = Ok l) layers ->
  Encoder.forward (Encoder.init layers) d x mask = Raise (AttributeError "bias").
Proof.
  intros Hbuilt. unfold Encoder.forward, Encoder.init. cbn [Encoder.layers Encoder.norm].
  destruct Hbuilt as [| l ls (a & f & p & Hl) _]; cbn [Encoder.run_layers].
  - cbn [mbind result_bind]. rewrite LayerNormalization_forward_init. reflexivity.
  - rewrite (EncoderBlock_forward_raises a f p l _ _ _ Hl). reflexivity.
Qed.

Lemma encoder_forward_raises_witness :
  Encoder.forward (Encoder.init [Fixture.encoder_block]) (fun _ => Fixture.block_draws)
    Sample.x1 None
  = Raise (AttributeError "bias").
Proof.
  apply (encoder_forward_raises [Fixture.encoder_block]).
  constructor; [| constructor].
  exists Sample.block, Fixture.feed_forward, (1 / 10)%R.
  apply EncoderBlock_init_ok. lra.
Defined.

Lemma DecoderBlock_init_ok (sa ca : MultiHeadAttentionBlock.t) (f : FeedForwardBlock.t)
    (p : R) :
  (0 <= p <= 1)%R ->
  DecoderBlock.init sa ca f p =
  Ok {| DecoderBlock.self_attention_block := sa;
        DecoderBlock.cross_attention_block := ca;
        DecoderBlock.feed_forward_block := f;
        DecoderBlock.residual_connection :=
          replicate 3 {| ResidualConnection.dropout :=
                           {| Dropout.p := p; Dropout.training := true |};
                         ResidualConnection.norm :=
                           LayerNormalization.init LayerNormalization.default_eps |} |}.
Proof.
  intros Hp. unfold DecoderBlock.init.
  cbn. rewrite !ResidualConnection_init_ok by exact Hp. reflexivity.
Qed.

(** X5. A decoder block built by its constructor raises [AttributeError]
    for [bias] on every input: neither attention block nor the
    feed-forward block is reached. *)
Theorem decoder_block_forward_raises (sa ca : MultiHeadAttentionBlock.t)
    (f : FeedForwardBlock.t) (p : R) (blk : DecoderBlock.t) (d : DecoderBlock.draws)
    (x encoder_output : tensor3) (src_mask tgt_mask : option mask4) :
  DecoderBlock.init sa ca f p = Ok blk ->
  DecoderBlock.forward blk d x encoder_output src_mask tgt_mask
  = Raise (AttributeError "bias").
Proof.
  unfold DecoderBlock.init.
  destruct (mapM _ (seq 0 3)) as [rcs | e] eqn:Hrcs; [| discriminate].
  cbn [mbind result_bind]. intros [= <-].
  apply mapM_residual_init in Hrcs as [Hlen Hall].
  destruct rcs as [| rc0 rcs]; [discriminate Hlen |].
  apply Forall_cons in Hall as [H0 _].
  unfold DecoderBlock.forward. cbn.
  now rewrite (ResidualConnection_forward_norm LayerNormalization.default_eps rc0)
    by (now apply (ResidualConnection_init_norm p)).
Qed.

Lemma decoder_block_forward_raises_witness :
  DecoderBlock.forward Fixture.decoder_block Fixture.decoder_block_draws
    Sample.x1 Sample.x1 None None
  = Raise (AttributeError "bias").
Proof.
  apply (decoder_block_forward_raises Sample.block Sample.block Fixture.feed_forward (1 / 10)).
  apply DecoderBlock_init_ok. lra.
Defined.

(** ** Transformer.encode *)

Lemma PositionalEncoding_call_raises (self : PositionalEncoding.t)
    (keep : nat -> nat -> nat -> bool) (x : pyval) :
  raises (PositionalEncoding.call self keep x).
Proof.
  destruct x; eexists; reflexivity.
Qed.

(** [encode] cannot return when the source positional encoding cannot. *)
Lemma Transformer_encode_stops (self : Transformer.t) (args : list pyval) :
  (forall t, raises (Transformer.src_pos self t)) ->
  raises (Transformer.encode self args).
Proof.
  intros Hpos. unfold Transformer.encode.
  destruct args as [| src [| src_mask [| extra rest]]]; try (eexists; reflexivity).
  destruct (Transformer.src_embed self src) as [t | e]; [| eexists; reflexivity].
  cbn [mbind result_bind]. destruct (Hpos t) as [e ->]. eexists. reflexivity.
Qed.

(** X6. [Transformer.encode] raises on every argument list when the
    source positional encoding is the repository's [PositionalEncoding],
    whatever the other sub-modules are: the encoder stack is never
    entered. *)
Theorem transformer_encode_raises (self : Transformer.t) (pe : PositionalEncoding.t)
    (keep : nat -> nat -> nat -> bool) (args : list pyval) :
  Transformer.src_pos self = PositionalEncoding.call pe keep ->
  raises (Transformer.encode self args).
Proof.
  intros Hpos. apply Transformer_encode_stops.
  intros t. rewrite Hpos. destruct t; eexists; reflexivity.
Qed.

Lemma transformer_encode_raises_witness :
  raises (Transformer.encode Sample.transformer [PyIds [[3%Z]]; PyMask [[[[1%Z]]]]]).
Proof.
  apply (transformer_encode_raises Sample.transformer Sample.tgt_position (fun _ _ _ => true)).
  reflexivity.
Defined.

(** ** Splitting into heads and merging back *)

Lemma concat_chunks (h d_k : nat) :
  forall tok : vec,
    length tok = (h * d_k)%nat ->
    concat ((fun j => take d_k (drop (j * d_k) tok)) <$> seq 0 h) = tok.
Proof.
  induction h as [| h IH]; intros tok Hlen.
  - destruct tok; [reflexivity | discriminate Hlen].
  - cbn [seq fmap list_fmap concat]. rewrite <- fmap_S_seq, <- list_fmap_compose.
    rewrite Nat.mul_0_l, drop_0.
    transitivity (take d_k tok ++ drop d_k tok); [| apply take_drop].
    f_equal.
    etransitivity; [| apply (IH (drop d_k tok)); rewrite length_drop; lia].
    f_equal. apply list_fmap_ext. intros _ j _. cbn.
    rewrite drop_drop. reflexivity.
Qed.

Lemma merge_split_batch (h d_k : nat) (xb : mat) :
  (0 < h)%nat -> Forall (fun tok : vec => length tok = (h * d_k)%nat) xb ->
  (fun s => concat ((fun xh : mat => nth s xh [])
                      <$> ((fun j => (fun tok : vec => take d_k (drop (j * d_k) tok)) <$> xb)
                             <$> seq 0 h)))
    <$> seq 0 (length xb) = xb.
Proof.
  intros Hh Hxb. apply list_eq. intros s. rewrite list_lookup_fmap.
  destruct (xb !! s) as [tok |] eqn:Hs.
  - rewrite lookup_seq_lt by (eapply lookup_lt_Some; exact Hs).
    cbn. f_equal. rewrite <- list_fmap_compose.
    etransitivity;
      [| apply (concat_chunks h d_k tok); now apply (Forall_lookup_1 _ _ _ _ Hxb Hs)].
    f_equal. apply list_fmap_ext. intros _ j _. cbn.
    rewrite nth_lookup, list_lookup_fmap, Hs. reflexivity.
  - rewrite lookup_seq_ge by (now apply lookup_ge_None). reflexivity.
Qed.

(** X7. Splitting the feature dimension into [h] heads of width [d_k]
    and merging the heads again gives the tensor back, for [h >= 1] and
    tokens of width [h * d_k]. *)
Theorem merge_heads_split_heads (h d_k : nat) (x : tensor3) :
  (0 < h)%nat ->
  Forall (Forall (fun tok : vec => length tok = (h * d_k)%nat)) x ->
  MultiHeadAttentionBlock.merge_heads (MultiHeadAttentionBlock.split_heads h d_k x) = x.
Proof.
  intros Hh Hx. unfold MultiHeadAttentionBlock.merge_heads, MultiHeadAttentionBlock.split_heads.
  rewrite <- list_fmap_compose.
  rewrite <- (list_fmap_id x) at 2. apply Forall_fmap_ext_1.
  eapply Forall_impl; [exact Hx |]. intros xb Hxb. cbn.
  destruct h as [| h]; [lia |].
  cbn [seq fmap list_fmap]. rewrite length_fmap.
  apply (merge_split_batch (S h) d_k xb Hh Hxb).
Qed.

Lemma merge_heads_split_heads_witness :
  MultiHeadAttentionBlock.merge_heads
    (MultiHeadAttentionBlock.split_heads 2 2 [[[1; 2; 3; 4]; [5; 6; 7; 8]]])%R
  = [[[1; 2; 3; 4]; [5; 6; 7; 8]]]%R.
Proof.
  apply (merge_heads_split_heads 2 2).
  - lia.
  - repeat constructor.
Defined.

(** ** Shape and range of the attention weights *)

Lemma softmax_row_entry (v : vec) (j : nat) (w : R) :
  softmax_row v !! j = Some w ->
  exists s, v !! j = Some s /\ w = (exp s / sum_list (exp <$> v))%R.
Proof.
  unfold softmax_row. rewrite !list_lookup_fmap.
  destruct (v !! j) as [s |]; [| discriminate].
  intros [= <-]. exists s. split; reflexivity.
Qed.

Lemma exp_le_sum (v : vec) (j : nat) (s : R) :
  v !! j = Some s -> (exp s <= sum_list (exp <$> v))%R.
Proof.
  revert j. induction v as [| x v IH]; intros j Hj; [discriminate Hj |].
  rewrite fmap_cons, sum_list_cons. destruct j as [| j]; simpl in Hj.
  - injection Hj as ->. pose proof (sum_exp_nonneg v). lra.
  - pose proof (IH j Hj). pose proof (exp_pos x). lra.
Qed.

Lemma softmax_row_range (v : vec) (j : nat) (w : R) :
  softmax_row v !! j = Some w -> (0 < w <= 1)%R.
Proof.
  intros Hw. apply softmax_row_entry in Hw as (s & Hs & ->).
  pose proof (exp_pos s) as Hpos. pose proof (exp_le_sum v j s Hs) as Hle.
  split.
  - apply Rdiv_lt_0_compat; lra.
  - apply Rmult_le_reg_r with (sum_list (exp <$> v)); [lra |].
    unfold Rdiv. rewrite Rmult_assoc, Rinv_l by lra. lra.
Qed.

(** A call of the routine that returns has passed the shape checks and
    returns what the routine computes. *)
Lemma attention_checked_ok (query key value : tensor4) (mask : option mask4)
    (dropout : option (tensor4 -> tensor4)) (r : tensor4 * tensor4) :
  MultiHeadAttentionBlock.attention_checked query key value mask dropout = Ok r ->
  MultiHeadAttentionBlock.attention_shapes_ok query key value mask /\
  MultiHeadAttentionBlock.attention query key value mask dropout = r.
Proof.
  unfold MultiHeadAttentionBlock.attention_checked.
  destruct (decide (MultiHeadAttentionBlock.attention_shapes_ok query key value mask))
    as [Hok | Hno]; [| discriminate].
  intros [= <-]. split; [exact Hok | reflexivity].
Qed.

(** Without dropout every row of the weights is the softmax of a row of
    scores. *)
Lemma attention_row_is_softmax (query key value : tensor4) (mask : option mask4)
    (b h i : nat) (wb : tensor3) (wh : mat) (row : vec) :
  (MultiHeadAttentionBlock.attention query key value mask None).2 !! b = Some wb ->
  wb !! h = Some wh -> wh !! i = Some row ->
  exists srow, row = softmax_row srow.
Proof.
  intros Hb Hh Hi. destruct mask as [m |];
    [rewrite attention_mask_ignored in Hb |];
    unfold MultiHeadAttentionBlock.attention in Hb; cbn [snd] in Hb.
  all: rewrite list_lookup_fmap in Hb;
    apply fmap_Some in Hb as (sb & Hsb & ->);
    rewrite list_lookup_fmap in Hh;
    apply fmap_Some in Hh as (sh & Hsh & ->);
    rewrite list_lookup_fmap in Hi;
    apply fmap_Some in Hi as (srow & Hsrow & ->);
    eexists; reflexivity.
Qed.

Lemma attention_inactive_dropout (query key value : tensor4) (mask : option mask4)
    (dropout : option (tensor4 -> tensor4)) :
  (dropout = None \/
   exists d keep, dropout = Some (Dropout.forward4 d keep) /\ Dropout.training d = false) ->
  (MultiHeadAttentionBlock.attention query key value mask dropout).2
  = (MultiHeadAttentionBlock.attention query key value mask None).2.
Proof.
  intros [-> | (d & keep & -> & Ht)]; [reflexivity |].
  unfold MultiHeadAttentionBlock.attention; cbn [snd].
  unfold Dropout.forward4. rewrite Ht. reflexivity.
Qed.

(** X8. When no dropout is passed or the dropout module is in inference
    mode, every attention weight that a call of the routine returns lies
    between 0 and 1, with or without a mask. *)
Theorem attention_weights_range (query key value : tensor4) (mask : option mask4)
    (dropout : option (tensor4 -> tensor4)) (x scores : tensor4) (b h i j : nat)
    (wb : tensor3) (wh : mat) (row : vec) (w : R) :
  (dropout = None \/
   exists d keep, dropout = Some (Dropout.forward4 d keep) /\ Dropout.training d = false) ->
  MultiHeadAttentionBlock.attention_checked query key value mask dropout = Ok (x, scores) ->
  scores !! b = Some wb ->
  wb !! h = Some wh -> wh !! i = Some row -> row !! j = Some w ->
  (0 <= w <= 1)%R.
Proof.
  intros Hd Hcall Hb Hh Hi Hj. apply attention_checked_ok in Hcall as [_ Hcall].
  apply (f_equal snd) in Hcall. cbn [snd] in Hcall. subst scores.
  rewrite (attention_inactive_dropout _ _ _ _ _ Hd) in Hb.
  destruct (attention_row_is_softmax _ _ _ _ _ _ _ _ _ _ Hb Hh Hi) as [srow ->].
  pose proof (softmax_row_range srow j w Hj). lra.
Qed.

Lemma attention_weights_range_witness : (0 <= 1 / 2 <= 1)%R.
Proof.
  apply (attention_weights_range Sample.query Sample.key Sample.value (Some Sample.mask)
           None
           (MultiHeadAttentionBlock.attention Sample.query Sample.key Sample.value
              (Some Sample.mask) None).1
           (MultiHeadAttentionBlock.attention Sample.query Sample.key Sample.value
              (Some Sample.mask) None).2
           0 0 0 1 [[[(1 / 2)%R; (1 / 2)%R]]] [[(1 / 2)%R; (1 / 2)%R]]
           [(1 / 2)%R; (1 / 2)%R]).
  - left. reflexivity.
  - unfold MultiHeadAttentionBlock.attention_checked. pass_checks. reflexivity.
  - rewrite attention_mask_ignored. cbn. rewrite sample_scores_zero, exp_0.
    repeat f_equal; lra.
  - reflexivity.
  - reflexivity.
  - reflexivity.
Defined.

Lemma Dropout_forward4_lookup (d : Dropout.t) (keep : nat -> nat -> nat -> nat -> bool)
    (x : tensor4) (b h : nat) (xb : tensor3) (xh : mat) :
  x !! b = Some xb -> xb !! h = Some xh ->
  exists yb yh, Dropout.forward4 d keep x !! b = Some yb /\ yb !! h = Some yh /\
                length yh = length xh /\
                Forall2 (fun yrow xrow : vec => length yrow = length xrow) yh xh.
Proof.
  intros Hb Hh. unfold Dropout.forward4. destruct (Dropout.training d).
  - eexists _, _. rewrite list_lookup_imap, Hb. cbn.
    split; [reflexivity |]. rewrite list_lookup_imap, Hh. cbn.
    split; [reflexivity |]. split; [apply length_imap |].
    apply Forall2_same_length_lookup. split; [apply length_imap |].
    intros i yrow xrow Hy Hx. rewrite list_lookup_imap, Hx in Hy. cbn in Hy.
    injection Hy as <-. apply length_imap.
  - exists xb, xh. repeat split; try assumption.
    apply Forall2_same_length_lookup. split; [reflexivity |].
    intros i yrow xrow Hy Hx. congruence.
Qed.

(** X9. The weights that a call of the routine returns have one matrix
    per batch entry and head, one row per query and one entry per key: for
    queries [qh] and keys [kh] of positive width at batch [b] and head
    [h], the weight matrix at [(b, h)] has [length qh] rows of [length kh]
    entries, in training and in inference mode. *)
Theorem attention_weights_shape (query key value : tensor4) (mask : option mask4)
    (dropout : option (tensor4 -> tensor4)) (x scores : tensor4)
    (b h : nat) (qb kb : tensor3) (qh kh : mat) :
  (dropout = None \/ exists d keep, dropout = Some (Dropout.forward4 d keep)) ->
  MultiHeadAttentionBlock.attention_checked query key value mask dropout = Ok (x, scores) ->
  query !! b = Some qb -> key !! b = Some kb ->
  qb !! h = Some qh -> kb !! h = Some kh -> ncols kh <> 0%nat ->
  exists (wb : tensor3) (wh : mat),
    scores !! b = Some wb /\
    wb !! h = Some wh /\ length wh = length qh /\
    Forall (fun row : vec => length row = length kh) wh.
Proof.
  intros Hd Hcall Hqb Hkb Hqh Hkh Hcols.
  apply attention_checked_ok in Hcall as [_ Hcall].
  apply (f_equal snd) in Hcall. cbn [snd] in Hcall. subst scores.
  set (f := fun q k : mat =>
         (fun row : vec => (fun s => (s / sqrt (INR (shape_last4 query)))%R) <$> row)
           <$> matmul q (transpose k)).
  assert (Hlen : length (f qh kh) = length qh).
  { subst f. cbn. unfold matmul. now rewrite !length_fmap. }
  assert (Hrows : Forall (fun row : vec => length row = length kh) (f qh kh)).
  { apply Forall_lookup. intros i row Hrow. subst f. cbn in Hrow.
    rewrite list_lookup_fmap in Hrow. apply fmap_Some in Hrow as (mrow & Hmrow & ->).
    rewrite length_fmap. now apply (matmul_transpose_row_length qh kh i). }
  assert (Hnone :
    exists (wb : tensor3),
      (MultiHeadAttentionBlock.attention query key value mask None).2 !! b = Some wb /\
      wb !! h = Some (softmax_row <$> f qh kh)).
  { destruct mask as [m |]; [rewrite attention_mask_ignored |];
      unfold MultiHeadAttentionBlock.attention; cbn [snd];
      rewrite list_lookup_fmap, lookup_zip_with, Hqb, Hkb; cbn;
      (eexists; split; [reflexivity |]);
      rewrite list_lookup_fmap, lookup_zip_with, Hqh, Hkh; reflexivity. }
  destruct Hnone as (wb0 & Hwb0 & Hwh0).
  assert (Hsoft : length (softmax_row <$> f qh kh) = length qh /\
                  Forall (fun row : vec => length row = length kh) (softmax_row <$> f qh kh)).
  { split; [now rewrite length_fmap |].
    apply Forall_fmap. eapply Forall_impl; [exact Hrows |].
    intros row Hrow. cbn. unfold softmax_row. now rewrite !length_fmap. }
  destruct Hd as [-> | (d & keep & ->)].
  - exists wb0, (softmax_row <$> f qh kh). tauto.
  - destruct (Dropout_forward4_lookup d keep
                (MultiHeadAttentionBlock.attention query key value mask None).2
                b h wb0 _ Hwb0 Hwh0) as (yb & yh & Hyb & Hyh & Hl & Hall).
    exists yb, yh.
    split; [| split; [exact Hyh | split; [lia |]]].
    + destruct mask as [m |]; exact Hyb.
    + destruct Hsoft as [_ Hs]. clear - Hall Hs.
      induction Hall as [| yrow xrow yh' xh' Hxy _ IH]; [constructor |].
      apply Forall_cons in Hs as [Hx Hs]. constructor; [lia | now apply IH].
Qed.

Lemma attention_weights_shape_witness :
  exists (wb : tensor3) (wh : mat),
    (MultiHeadAttentionBlock.attention Sample.query Sample.key Sample.value
       (Some Sample.mask) (Some (Dropout.forward4 Sample.dropout01 Sample.keep_all))).2 !! 0%nat
    = Some wb /\
    wb !! 0%nat = Some wh /\ length wh = length [[0%R]] /\
    Forall (fun row : vec => length row = length [[0%R]; [0%R]]) wh.
Proof.
  apply (attention_weights_shape Sample.query Sample.key Sample.value (Some Sample.mask)
           (Some (Dropout.forward4 Sample.dropout01 Sample.keep_all))
           (MultiHeadAttentionBlock.attention Sample.query Sample.key Sample.value
              (Some Sample.mask)
              (Some (Dropout.forward4 Sample.dropout01 Sample.keep_all))).1
           (MultiHeadAttentionBlock.attention Sample.query Sample.key Sample.value
              (Some Sample.mask)
              (Some (Dropout.forward4 Sample.dropout01 Sample.keep_all))).2
           0 0 [[[0%R]]] [[[0%R]; [0%R]]] [[0%R]] [[0%R]; [0%R]]).
  - right. eexists _, _. reflexivity.
  - unfold MultiHeadAttentionBlock.attention_checked. pass_checks. reflexivity.
  - reflexivity.
  - reflexivity.
  - reflexivity.
  - reflexivity.
  - discriminate.
Defined.

(** ** The attention block does not look at its mask *)

Lemma attend_mask_independent (self : MultiHeadAttentionBlock.t)
    (q k v : tensor3) (mask1 mask2 : option mask4)
    (keep : nat -> nat -> nat -> nat -> bool) (r1 r2 : tensor4 * tensor4) :
  MultiHeadAttentionBlock.attend self q k v mask1 keep = Ok r1 ->
  MultiHeadAttentionBlock.attend self q k v mask2 keep = Ok r2 ->
  r1 = r2.
Proof.
  unfold MultiHeadAttentionBlock.attend.
  destruct (Linear.forward (MultiHeadAttentionBlock.w_q self) q) as [a1 | e];
    [| discriminate].
  destruct (Linear.forward (MultiHeadAttentionBlock.w_k self) k) as [a2 | e];
    [| discriminate].
  destruct (Linear.forward (MultiHeadAttentionBlock.w_v self) v) as [a3 | e];
    [| discriminate].
  cbn.
  destruct (MultiHeadAttentionBlock.view_heads _ _ a1) as [b1 | e]; [| discriminate].
  destruct (MultiHeadAttentionBlock.view_heads _ _ a2) as [b2 | e]; [| discriminate].
  destruct (MultiHeadAttentionBlock.view_heads _ _ a3) as [b3 | e]; [| discriminate].
  cbn. intros H1 H2.
  apply attention_checked_ok in H1 as [_ <-]. apply attention_checked_ok in H2 as [_ <-].
  destruct mask1 as [m1 |], mask2 as [m2 |]; rewrite ?attention_mask_ignored; reflexivity.
Qed.

(** X10. Two calls of the forward pass of an attention block that differ
    in the mask only, and that both return an output, return the same
    output and store the same weights: a causal or padding mask that the
    block accepts changes nothing. *)
Theorem attention_forward_mask_independent (self : MultiHeadAttentionBlock.t)
    (q k v : tensor3) (mask1 mask2 : option mask4)
    (keep : nat -> nat -> nat -> nat -> bool) (out1 out2 : tensor3) :
  (MultiHeadAttentionBlock.forward self q k v mask1 keep).1 = Ok out1 ->
  (MultiHeadAttentionBlock.forward self q k v mask2 keep).1 = Ok out2 ->
  MultiHeadAttentionBlock.forward self q k v mask1 keep
  = MultiHeadAttentionBlock.forward self q k v mask2 keep.
Proof.
  unfold MultiHeadAttentionBlock.forward.
  destruct (MultiHeadAttentionBlock.attend self q k v mask1 keep) as [r1 | e1] eqn:H1;
    [| discriminate].
  destruct (MultiHeadAttentionBlock.attend self q k v mask2 keep) as [r2 | e2] eqn:H2;
    [| destruct r1; discriminate].
  rewrite (attend_mask_independent _ _ _ _ _ _ _ _ _ H1 H2). reflexivity.
Qed.

Lemma attention_forward_mask_independent_witness :
  MultiHeadAttentionBlock.forward Sample.block Sample.x1 Sample.x1 Sample.x1 None
    (fun _ _ _ _ => true)
  = MultiHeadAttentionBlock.forward Sample.block Sample.x1 Sample.x1 Sample.x1
      (Some [[[[0%Z]]]]) (fun _ _ _ _ => true).
Proof.
  assert (Hreturns : forall mask,
    mask = None \/ mask = Some [[[[0%Z]]]] ->
    exists out,
      (MultiHeadAttentionBlock.forward Sample.block Sample.x1 Sample.x1 Sample.x1 mask
         (fun _ _ _ _ => true)).1 = Ok out).
  { intros mask Hmask. eexists.
    unfold MultiHeadAttentionBlock.forward, MultiHeadAttentionBlock.attend, Linear.forward,
      MultiHeadAttentionBlock.view_heads, MultiHeadAttentionBlock.attention_checked,
      MultiHeadAttentionBlock.merge_view.
    destruct Hmask as [-> | ->]; pass_checks; cbn; pass_checks; reflexivity. }
  destruct (Hreturns None) as [out1 H1]; [left; reflexivity |].
  destruct (Hreturns (Some [[[[0%Z]]]])) as [out2 H2]; [right; reflexivity |].
  exact (attention_forward_mask_independent Sample.block Sample.x1 Sample.x1 Sample.x1
           None (Some [[[[0%Z]]]]) (fun _ _ _ _ => true) out1 out2 H1 H2).
Defined.

(** ** Construction of the positional table *)

Lemma Dropout_init_inv (p : R) (dr : Dropout.t) :
  Dropout.init p = Ok dr -> (0 <= p <= 1)%R.
Proof.
  unfold Dropout.init. destruct (Rlt_dec p 0); [discriminate |].
  destruct (Rlt_dec 1 p); [discriminate |]. intros _. lra.
Qed.

Lemma arange_lengths (n : nat) :
  length (arange 0 n 2) = ((n + 1) / 2)%nat /\
  ((0 < n)%nat -> length (arange 1 n 2) = (n / 2)%nat).
Proof.
  unfold arange. rewrite !length_fmap, !length_seq. split.
  - f_equal. lia.
  - intros Hn. f_equal. lia.
Qed.

Lemma half_facts (n : nat) :
  (n = 2 * (n / 2) + n mod 2 /\ n mod 2 < 2 /\
   n + 1 = 2 * ((n + 1) / 2) + (n + 1) mod 2 /\ (n + 1) mod 2 < 2)%nat.
Proof.
  repeat split.
  - apply Nat.div_mod_eq.
  - apply Nat.mod_upper_bound. lia.
  - apply Nat.div_mod_eq.
  - apply Nat.mod_upper_bound. lia.
Qed.

Lemma setitem_cols_shape (start cols vcols : nat) (t value t' : mat) (n : nat) :
  setitem_cols start cols vcols t value = Ok t' ->
  length value = length t ->
  length t' = length t /\
  (Forall (fun row : vec => length row = n) t -> Forall (fun row : vec => length row = n) t').
Proof.
  unfold setitem_cols. destruct (decide _) as [_ |]; [| discriminate].
  intros [= <-] Hlen. split.
  - rewrite length_zip_with. lia.
  - intros Hrows. apply Forall_lookup. intros i row Hrow.
    apply lookup_zip_with_Some in Hrow as (r & vr & -> & Hr & _).
    rewrite length_imap. now apply (Forall_lookup_1 _ _ _ _ Hrows Hr).
Qed.

(** The constructor unfolded: what it checks and what it assigns. *)
Lemma PositionalEncoding_init_inv (d_model seq_len : Z) (dropout : R)
    (self : PositionalEncoding.t) :
  PositionalEncoding.init d_model seq_len dropout = Ok self ->
  (0 <= dropout <= 1)%R /\ (0 <= seq_len)%Z /\ (0 < d_model)%Z /\
  (d_model = 1 \/ d_model mod 2 = 0)%Z /\
  exists table : mat,
    PositionalEncoding.pe self = [table] /\ length table = Z.to_nat seq_len /\
    Forall (fun row : vec => length row = Z.to_nat d_model) table.
Proof.
  intros Hinit. unfold PositionalEncoding.init in Hinit.
  destruct (Dropout.init dropout) as [dr | e] eqn:Hdr; [| discriminate Hinit].
  apply Dropout_init_inv in Hdr.
  cbn [mbind result_bind] in Hinit.
  unfold torch_zeros, py_truediv in Hinit.
  destruct ((seq_len <? 0) || (d_model <? 0))%Z eqn:Hneg; [discriminate Hinit |].
  apply orb_false_iff in Hneg as [Hs Hd]. apply Z.ltb_ge in Hs, Hd.
  destruct (d_model =? 0)%Z eqn:Hd0; [discriminate Hinit |].
  apply Z.eqb_neq in Hd0.
  cbn [mbind result_bind] in Hinit.
  set (div_term := (fun k => exp (INR k * (- ln 10000 / IZR d_model)))
                     <$> arange 0 (Z.to_nat d_model) 2) in *.
  set (angle := (fun pos : vec => (fun dv => (bnth 0 pos 0 * dv)%R) <$> div_term)
                  <$> ((fun p => [INR p]) <$> seq 0 (Z.to_nat seq_len))) in *.
  assert (Hangle : length angle = Z.to_nat seq_len)
    by (subst angle; now rewrite !length_fmap, length_seq).
  destruct (setitem_cols 0 _ _ _ _) as [pe1 | e] eqn:H1 in Hinit; [| discriminate Hinit].
  cbn [mbind result_bind] in Hinit.
  destruct (setitem_cols 1 _ _ _ _) as [pe2 | e] eqn:H2 in Hinit; [| discriminate Hinit].
  cbn [mbind result_bind] in Hinit.
  injection Hinit as <-. cbn [PositionalEncoding.pe].
  split; [exact Hdr |]. split; [exact Hs |]. split; [lia |]. split.
  - unfold setitem_cols in H2.
    destruct (decide _) as [Hshape |] in H2; [| discriminate H2].
    subst div_term. rewrite length_fmap in Hshape.
    destruct (arange_lengths (Z.to_nat d_model)) as [L0 L1].
    rewrite L0, L1 in Hshape by lia.
    destruct (half_facts (Z.to_nat d_model)) as (E0 & B0 & E1 & B1).
    pose proof (Z.div_mod d_model 2 ltac:(lia)).
    pose proof (Z.mod_pos_bound d_model 2 ltac:(lia)).
    lia.
  - apply (setitem_cols_shape _ _ _ _ _ _ (Z.to_nat d_model)) in H1
      as [Hl1 Hr1]; [| rewrite length_fmap, length_replicate; exact Hangle].
    apply (setitem_cols_shape _ _ _ _ _ _ (Z.to_nat d_model)) in H2
      as [Hl2 Hr2]; [| rewrite length_fmap, Hl1, length_replicate; exact Hangle].
    exists pe2. split; [reflexivity |]. split.
    + rewrite Hl2, Hl1. apply length_replicate.
    + apply Hr2, Hr1. apply Forall_replicate. apply length_replicate.
Qed.

Lemma PositionalEncoding_init_width_one (seq_len : Z) (dropout : R) :
  (0 <= dropout <= 1)%R -> (0 <= seq_len)%Z ->
  exists self, PositionalEncoding.init 1 seq_len dropout = Ok self.
Proof.
  intros Hp Hs. unfold PositionalEncoding.init.
  rewrite Dropout_init_ok by exact Hp. cbn [mbind result_bind].
  unfold torch_zeros.
  destruct ((seq_len <? 0) || (1 <? 0))%Z eqn:Hneg.
  { apply orb_true_iff in Hneg as [H | H]; apply Z.ltb_lt in H; lia. }
  cbn. eexists. reflexivity.
Qed.

(** X11. The constructor of the positional encoding returns exactly for
    a dropout probability in [0, 1], a sequence length of at least 0 and a
    [d_model] that is 1 or positive and even; for every other
    configuration, an odd [d_model] of 3 or more among them, it raises. *)
Theorem positional_encoding_init_returns_iff (d_model seq_len : Z) (dropout : R) :
  (exists self, PositionalEncoding.init d_model seq_len dropout = Ok self) <->
  ((0 <= dropout <= 1)%R /\ (0 <= seq_len)%Z /\ (0 < d_model)%Z /\
   (d_model = 1 \/ d_model mod 2 = 0)%Z).
Proof.
  split.
  - intros [self Hself].
    destruct (PositionalEncoding_init_inv _ _ _ _ Hself) as (Hp & Hs & Hd & Hw & _).
    tauto.
  - intros (Hp & Hs & Hd & [-> | Heven]).
    + now apply PositionalEncoding_init_width_one.
    + now apply positional_encoding_init_succeeds.
Qed.

(** X12. A table that the constructor returns has [seq_len] rows of
    [d_model] entries. *)
Theorem positional_table_shape (d_model seq_len : Z) (dropout : R)
    (self : PositionalEncoding.t) :
  PositionalEncoding.init d_model seq_len dropout = Ok self ->
  exists table : mat,
    PositionalEncoding.pe self = [table] /\ length table = Z.to_nat seq_len /\
    Forall (fun row : vec => length row = Z.to_nat d_model) table.
Proof.
  intros Hself. now destruct (PositionalEncoding_init_inv _ _ _ _ Hself) as (_ & _ & _ & _ & H).
Qed.

Lemma Fixture_positional_init :
  exists self, PositionalEncoding.init 4 3 (1 / 10) = Ok self.
Proof. apply positional_encoding_init_succeeds; [lra | lia | lia | reflexivity]. Qed.

Lemma positional_table_shape_witness :
  exists (self : PositionalEncoding.t) (table : mat),
    PositionalEncoding.pe self = [table] /\ length table = Z.to_nat 3 /\
    Forall (fun row : vec => length row = Z.to_nat 4) table.
Proof.
  destruct Fixture_positional_init as [self Hself].
  exists self. apply (positional_table_shape 4 3 (1 / 10) self Hself).
Defined.

(** Every entry of a returned table is a sine or a cosine. *)
Lemma positional_table_entry (d_model seq_len : Z) (dropout : R)
    (self : PositionalEncoding.t) (table : mat) (row : vec) (p j : nat) (v : R) :
  PositionalEncoding.init d_model seq_len dropout = Ok self ->
  PositionalEncoding.pe self = [table] ->
  table !! p = Some row -> row !! j = Some v ->
  exists i : nat,
    (j = (2 * i)%nat /\ v = sin (INR p / Rpower 10000 (2 * INR i / IZR d_model))) \/
    (j = (2 * i + 1)%nat /\ v = cos (INR p / Rpower 10000 (2 * INR i / IZR d_model))).
Proof.
  intros Hself Hpe Hrow Hv.
  destruct (PositionalEncoding_init_inv _ _ _ _ Hself)
    as (_ & _ & _ & _ & table' & Hpe' & Hlen & Hrows).
  rewrite Hpe in Hpe'. injection Hpe' as <-.
  assert (Hp : (Z.of_nat p < seq_len)%Z).
  { apply lookup_lt_Some in Hrow. lia. }
  assert (Hj : (Z.of_nat j < d_model)%Z).
  { apply lookup_lt_Some in Hv.
    rewrite (Forall_lookup_1 _ _ _ _ Hrows Hrow) in Hv. lia. }
  destruct (Nat.Even_or_Odd j) as [[i ->] | [i ->]]; exists i.
  - destruct (positional_table_row d_model seq_len dropout self p i Hself Hp)
      as (table' & row' & Hpe' & Hrow' & Hsin & _).
    rewrite Hpe in Hpe'. injection Hpe' as <-. rewrite Hrow in Hrow'. injection Hrow' as <-.
    left. split; [reflexivity |]. rewrite (Hsin Hj) in Hv. now injection Hv.
  - destruct (positional_table_row d_model seq_len dropout self p i Hself Hp)
      as (table' & row' & Hpe' & Hrow' & _ & Hcos).
    rewrite Hpe in Hpe'. injection Hpe' as <-. rewrite Hrow in Hrow'. injection Hrow' as <-.
    right. split; [reflexivity |]. rewrite (Hcos Hj) in Hv. now injection Hv.
Qed.

(** X13. Every entry of a returned table lies in [-1, 1]. *)
Theorem positional_table_bounded (d_model seq_len : Z) (dropout : R)
    (self : PositionalEncoding.t) (table : mat) (row : vec) (p j : nat) (v : R) :
  PositionalEncoding.init d_model seq_len dropout = Ok self ->
  PositionalEncoding.pe self = [table] ->
  table !! p = Some row -> row !! j = Some v ->
  (-1 <= v <= 1)%R.
Proof.
  intros Hself Hpe Hrow Hv.
  destruct (positional_table_entry _ _ _ _ _ _ _ _ _ Hself Hpe Hrow Hv)
    as [i [[_ ->] | [_ ->]]].
  - apply SIN_bound.
  - apply COS_bound.
Qed.

(** X14. Position 0 is encoded by 0 at the even and 1 at the odd feature
    indices, for every [d_model]. *)
Theorem positional_table_row_zero (d_model seq_len : Z) (dropout : R)
    (self : PositionalEncoding.t) (table : mat) (row : vec) (j : nat) (v : R) :
  PositionalEncoding.init d_model seq_len dropout = Ok self ->
  PositionalEncoding.pe self = [table] ->
  table !! 0%nat = Some row -> row !! j = Some v ->
  v = if Nat.even j then 0%R else 1%R.
Proof.
  intros Hself Hpe Hrow Hv.
  destruct (positional_table_entry _ _ _ _ _ _ _ _ _ Hself Hpe Hrow Hv)
    as [i [[-> ->] | [-> ->]]].
  - rewrite Nat.even_mul. cbn [Nat.even orb]. cbn [INR].
    unfold Rdiv. rewrite Rmult_0_l. apply sin_0.
  - rewrite Nat.add_comm, Nat.even_add_mul_2. cbn [Nat.even]. cbn [INR].
    unfold Rdiv. rewrite Rmult_0_l. apply cos_0.
Qed.

Lemma positional_table_bounded_witness :
  (-1 <= sin (INR 1 / Rpower 10000 (2 * INR 1 / IZR 4)) <= 1)%R.
Proof.
  destruct Fixture_positional_init as [self Hself].
  destruct (positional_table_row 4 3 (1 / 10) self 1 1 Hself ltac:(lia))
    as (table & row & Hpe & Hrow & Hsin & _).
  apply (positional_table_bounded 4 3 (1 / 10) self table row 1 2 _ Hself Hpe Hrow).
  apply Hsin. lia.
Defined.

Lemma positional_table_row_zero_witness :
  cos (INR 0 / Rpower 10000 (2 * INR 1 / IZR 4)) = (if Nat.even 3 then 0%R else 1%R).
Proof.
  destruct Fixture_positional_init as [self Hself].
  destruct (positional_table_row 4 3 (1 / 10) self 0 1 Hself ltac:(lia))
    as (table & row & Hpe & Hrow & _ & Hcos).
  apply (positional_table_row_zero 4 3 (1 / 10) self table row 3 _ Hself Hpe Hrow).
  apply Hcos. lia.
Defined.

(** ** build_transformer and get_model *)

Lemma mapM_result_exists {A B} (f : A -> result B) (l : list A) :
  Forall (fun x => exists y, f x = Ok y) l -> exists k, mapM f l = Ok k.
Proof.
  induction 1 as [| x l [y Hy] _ [k IH]]; [eexists; reflexivity |].
  exists (y :: k). cbn [mapM]. rewrite Hy. cbn [mbind result_bind]. rewrite IH. reflexivity.
Qed.

Lemma MultiHeadAttentionBlock_init_inv (d_model h : Z) (p : R)
    (w : MultiHeadAttentionBlock.init_weights) (blk : MultiHeadAttentionBlock.t) :
  MultiHeadAttentionBlock.init d_model h p w = Ok blk ->
  h <> 0%Z /\ (d_model mod h = 0)%Z /\
  MultiHeadAttentionBlock.d_model blk = d_model /\
  MultiHeadAttentionBlock.h blk = h /\
  MultiHeadAttentionBlock.d_k blk = (d_model / h)%Z.
Proof.
  unfold MultiHeadAttentionBlock.init.
  destruct (h =? 0)%Z eqn:Eh; [discriminate |]. apply Z.eqb_neq in Eh.
  destruct (d_model mod h =? 0)%Z eqn:Em; cbn [negb]; [| discriminate].
  apply Z.eqb_eq in Em. intros H. inv_bind H.
  injection H as <-. cbn. tauto.
Qed.

Lemma MultiHeadAttentionBlock_init_returns (d_model h : Z) (p : R)
    (w : MultiHeadAttentionBlock.init_weights) :
  (0 <= d_model)%Z -> (0 <= p <= 1)%R -> h <> 0%Z -> (d_model mod h = 0)%Z ->
  exists blk, MultiHeadAttentionBlock.init d_model h p w = Ok blk.
Proof.
  intros Hd Hp Hh Hm. unfold MultiHeadAttentionBlock.init.
  destruct (h =? 0)%Z eqn:Eh; [apply Z.eqb_eq in Eh; contradiction |].
  destruct (d_model mod h =? 0)%Z eqn:Em; [| apply Z.eqb_neq in Em; contradiction].
  cbn [negb]. rewrite !Linear_init_ok by exact Hd. rewrite Dropout_init_ok by exact Hp.
  eexists. reflexivity.
Qed.

Lemma Linear_init_returns (n m : Z) (w : mat) (b : vec) :
  (0 <= n)%Z -> (0 <= m)%Z ->
  Linear.init n m w b =
  Ok {| Linear.in_features := n; Linear.out_features := m;
        Linear.weight := w; Linear.bias := b |}.
Proof.
  intros Hn Hm. unfold Linear.init.
  destruct (n <? 0)%Z eqn:En; [apply Z.ltb_lt in En; lia |].
  destruct (m <? 0)%Z eqn:Em; [apply Z.ltb_lt in Em; lia | reflexivity].
Qed.

Lemma FeedForwardBlock_init_returns (d_model d_ff : Z) (p : R) (w1 w2 : mat * vec) :
  (0 <= d_model)%Z -> (0 <= d_ff)%Z -> (0 <= p <= 1)%R ->
  exists f, FeedForwardBlock.init d_model d_ff p w1 w2 = Ok f.
Proof.
  intros Hd Hf Hp. unfold FeedForwardBlock.init.
  rewrite !Linear_init_returns by assumption. rewrite Dropout_init_ok by exact Hp.
  eexists. reflexivity.
Qed.

Lemma EncoderBlock_init_attention (a : MultiHeadAttentionBlock.t) (f : FeedForwardBlock.t)
    (p : R) (blk : EncoderBlock.t) :
  EncoderBlock.init a f p = Ok blk -> EncoderBlock.self_attention_block blk = a.
Proof.
  unfold EncoderBlock.init. destruct (Dropout.init p); [| discriminate].
  cbn [mbind result_bind]. destruct (mapM _ _); [| discriminate].
  cbn [mbind result_bind]. now intros [= <-].
Qed.

Lemma DecoderBlock_init_attention (sa ca : MultiHeadAttentionBlock.t)
    (f : FeedForwardBlock.t) (p : R) (blk : DecoderBlock.t) :
  DecoderBlock.init sa ca f p = Ok blk ->
  DecoderBlock.self_attention_block blk = sa /\ DecoderBlock.cross_attention_block blk = ca.
Proof.
  unfold DecoderBlock.init. destruct (mapM _ _); [| discriminate].
  cbn [mbind result_bind]. now intros [= <-].
Qed.

Lemma build_encoder_block_inv (rng : initializer) (h d_model d_ff : Z) (p : R) (i : nat)
    (blk : EncoderBlock.t) :
  build_encoder_block rng h d_model d_ff p i = Ok blk ->
  h <> 0%Z /\ (d_model mod h = 0)%Z /\
  attention_configured d_model h (EncoderBlock.self_attention_block blk) /\
  exists a f, EncoderBlock.init a f p = Ok blk.
Proof.
  unfold build_encoder_block. intros H.
  apply result_bind_ok in H as (a & Ha & H).
  apply result_bind_ok in H as (f & Hf & Hblk).
  apply MultiHeadAttentionBlock_init_inv in Ha as (Hh & Hm & Hcfg).
  rewrite (EncoderBlock_init_attention _ _ _ _ Hblk).
  split; [exact Hh |]. split; [exact Hm |]. split; [exact Hcfg |].
  exists a, f. exact Hblk.
Qed.

Lemma build_decoder_block_inv (rng : initializer) (h d_model d_ff : Z) (p : R) (i : nat)
    (blk : DecoderBlock.t) :
  build_decoder_block rng h d_model d_ff p i = Ok blk ->
  attention_configured d_model h (DecoderBlock.self_attention_block blk) /\
  attention_configured d_model h (DecoderBlock.cross_attention_block blk) /\
  exists sa ca f, DecoderBlock.init sa ca f p = Ok blk.
Proof.
  unfold build_decoder_block. intros H.
  apply result_bind_ok in H as (sa & Hsa & H).
  apply result_bind_ok in H as (ca & Hca & H).
  apply result_bind_ok in H as (f & Hf & Hblk).
  apply MultiHeadAttentionBlock_init_inv in Hsa as (_ & _ & Hs).
  apply MultiHeadAttentionBlock_init_inv in Hca as (_ & _ & Hc).
  destruct (DecoderBlock_init_attention _ _ _ _ _ Hblk) as [-> ->].
  split; [exact Hs |]. split; [exact Hc |]. exists sa, ca, f. exact Hblk.
Qed.

Lemma build_encoder_block_returns (rng : initializer) (h d_model d_ff : Z) (p : R) (i : nat) :
  (0 <= d_model)%Z -> (0 <= d_ff)%Z -> (0 <= p <= 1)%R -> h <> 0%Z -> (d_model mod h = 0)%Z ->
  exists blk, build_encoder_block rng h d_model d_ff p i = Ok blk.
Proof.
  intros Hd Hf Hp Hh Hm. unfold build_encoder_block.
  destruct (MultiHeadAttentionBlock_init_returns d_model h p
              (attention_weights rng [2; i; 0] d_model) Hd Hp Hh Hm) as [a ->].
  cbn [mbind result_bind].
  destruct (FeedForwardBlock_init_returns d_model d_ff p
              (shaped_linear rng [2; i; 1; 0] d_model d_ff)
              (shaped_linear rng [2; i; 1; 1] d_ff d_model) Hd Hf Hp) as [f ->].
  cbn [mbind result_bind]. rewrite EncoderBlock_init_ok by exact Hp. eexists. reflexivity.
Qed.

Lemma build_decoder_block_returns (rng : initializer) (h d_model d_ff : Z) (p : R) (i : nat) :
  (0 <= d_model)%Z -> (0 <= d_ff)%Z -> (0 <= p <= 1)%R -> h <> 0%Z -> (d_model mod h = 0)%Z ->
  exists blk, build_decoder_block rng h d_model d_ff p i = Ok blk.
Proof.
  intros Hd Hf Hp Hh Hm. unfold build_decoder_block.
  destruct (MultiHeadAttentionBlock_init_returns d_model h p
              (attention_weights rng [3; i; 0] d_model) Hd Hp Hh Hm) as [sa ->].
  cbn [mbind result_bind].
  destruct (MultiHeadAttentionBlock_init_returns d_model h p
              (attention_weights rng [3; i; 1] d_model) Hd Hp Hh Hm) as [ca ->].
  cbn [mbind result_bind].
  destruct (FeedForwardBlock_init_returns d_model d_ff p
              (shaped_linear rng [3; i; 2; 0] d_model d_ff)
              (shaped_linear rng [3; i; 2; 1] d_ff d_model) Hd Hf Hp) as [f ->].
  cbn [mbind result_bind]. rewrite DecoderBlock_init_ok by exact Hp. eexists. reflexivity.
Qed.

Lemma InputEmbedding_init_returns (rng : initializer) (path : list nat) (d_model vocab : Z) :
  (0 <= d_model)%Z -> (0 <= vocab)%Z ->
  InputEmbedding_init rng path d_model vocab =
  Ok {| InputEmbedding.d_model := d_model; InputEmbedding.vocab_size := vocab;
        InputEmbedding.embedding := shaped_matrix vocab d_model (weight_entry rng path) |}.
Proof.
  intros Hd Hv. unfold InputEmbedding_init.
  destruct (vocab <? 0)%Z eqn:E1; [apply Z.ltb_lt in E1; lia |].
  destruct (d_model <? 0)%Z eqn:E2; [apply Z.ltb_lt in E2; lia | reflexivity].
Qed.

Lemma InputEmbedding_init_inv (rng : initializer) (path : list nat) (d_model vocab : Z)
    (e : InputEmbedding.t) :
  InputEmbedding_init rng path d_model vocab = Ok e ->
  InputEmbedding.d_model e = d_model /\ InputEmbedding.vocab_size e = vocab /\
  length (InputEmbedding.embedding e) = Z.to_nat vocab.
Proof.
  unfold InputEmbedding_init. destruct (_ || _)%Z; [discriminate |].
  intros [= <-]. cbn. unfold shaped_matrix. now rewrite length_fmap, length_seq.
Qed.

(** What a returned module tree looks like *)
Lemma build_transformer_inv (rng : initializer)
    (src_vocab_size tgt_vocab_size src_seq_len tgt_seq_len N h d_model d_ff : Z)
    (p : R) (m : modules) :
  build_transformer rng src_vocab_size tgt_vocab_size src_seq_len tgt_seq_len
    N h d_model d_ff p = Ok m ->
  Forall2 (fun i blk => build_encoder_block rng h d_model d_ff p i = Ok blk)
    (seq 0 (Z.to_nat N)) (Encoder.layers (encoder m)) /\
  Forall2 (fun i blk => build_decoder_block rng h d_model d_ff p i = Ok blk)
    (seq 0 (Z.to_nat N)) (decoder_layers m) /\
  InputEmbedding_init rng [0] d_model src_vocab_size = Ok (src_embed m) /\
  InputEmbedding_init rng [1] d_model tgt_vocab_size = Ok (tgt_embed m) /\
  PositionalEncoding.init d_model src_seq_len p = Ok (src_pos m) /\
  PositionalEncoding.init d_model tgt_seq_len p = Ok (tgt_pos m).
Proof.
  unfold build_transformer. intros H.
  apply result_bind_ok in H as (se & Hse & H).
  apply result_bind_ok in H as (te & Hte & H).
  apply result_bind_ok in H as (sp & Hsp & H).
  apply result_bind_ok in H as (tp & Htp & H).
  apply result_bind_ok in H as (eb & Heb & H).
  apply result_bind_ok in H as (db & Hdb & H).
  apply result_bind_ok in H as (pl & Hpl & H).
  injection H as <-. cbn.
  apply mapM_result_length in Heb. apply mapM_result_length in Hdb. tauto.
Qed.

Lemma build_transformer_returns (rng : initializer)
    (src_vocab_size tgt_vocab_size src_seq_len tgt_seq_len N h d_model d_ff : Z) (p : R) :
  (0 <= src_vocab_size)%Z -> (0 <= tgt_vocab_size)%Z ->
  (0 <= src_seq_len)%Z -> (0 <= tgt_seq_len)%Z ->
  (0 < d_model)%Z -> (d_model mod 2 = 0)%Z -> (0 <= d_ff)%Z -> (0 <= p <= 1)%R ->
  (N <= 0)%Z \/ (h <> 0%Z /\ (d_model mod h = 0)%Z) ->
  exists m, build_transformer rng src_vocab_size tgt_vocab_size src_seq_len tgt_seq_len
              N h d_model d_ff p = Ok m.
Proof.
  intros Hsv Htv Hss Hts Hd Heven Hf Hp HN. unfold build_transformer.
  rewrite !InputEmbedding_init_returns by lia. cbn [mbind result_bind].
  destruct (positional_encoding_init_succeeds d_model src_seq_len p Hp Hss Hd Heven) as [sp ->].
  cbn [mbind result_bind].
  destruct (positional_encoding_init_succeeds d_model tgt_seq_len p Hp Hts Hd Heven) as [tp ->].
  cbn [mbind result_bind].
  assert (Henc : exists eb, mapM (build_encoder_block rng h d_model d_ff p)
                              (seq 0 (Z.to_nat N)) = Ok eb).
  { apply mapM_result_exists. destruct HN as [HN | [Hh Hm]].
    - replace (Z.to_nat N) with 0%nat by lia. constructor.
    - apply Forall_forall. intros i _.
      apply build_encoder_block_returns; (lia || assumption). }
  assert (Hdec : exists db, mapM (build_decoder_block rng h d_model d_ff p)
                              (seq 0 (Z.to_nat N)) = Ok db).
  { apply mapM_result_exists. destruct HN as [HN | [Hh Hm]].
    - replace (Z.to_nat N) with 0%nat by lia. constructor.
    - apply Forall_forall. intros i _.
      apply build_decoder_block_returns; (lia || assumption). }
  destruct Henc as [eb ->]. cbn [mbind result_bind].
  destruct Hdec as [db ->]. cbn [mbind result_bind].
  unfold ProjectionLayer.init. rewrite Linear_init_returns by lia.
  eexists. reflexivity.
Qed.

(** X15. A model that [build_transformer] returns has [N] encoder blocks
    and [N] decoder blocks (none for [N <= 0]); every attention block in
    them has width [d_model], [h] heads and [d_k = d_model // h]; the two
    embedding tables have one row per word of their vocabulary. *)
Theorem build_transformer_structure (rng : initializer)
    (src_vocab_size tgt_vocab_size src_seq_len tgt_seq_len N h d_model d_ff : Z)
    (p : R) (m : modules) :
  build_transformer rng src_vocab_size tgt_vocab_size src_seq_len tgt_seq_len
    N h d_model d_ff p = Ok m ->
  length (Encoder.layers (encoder m)) = Z.to_nat N /\
  length (decoder_layers m) = Z.to_nat N /\
  Forall (fun l => attention_configured d_model h (EncoderBlock.self_attention_block l))
    (Encoder.layers (encoder m)) /\
  Forall (fun l => attention_configured d_model h (DecoderBlock.self_attention_block l) /\
                   attention_configured d_model h (DecoderBlock.cross_attention_block l))
    (decoder_layers m) /\
  InputEmbedding.d_model (src_embed m) = d_model /\
  InputEmbedding.d_model (tgt_embed m) = d_model /\
  length (InputEmbedding.embedding (src_embed m)) = Z.to_nat src_vocab_size /\
  length (InputEmbedding.embedding (tgt_embed m)) = Z.to_nat tgt_vocab_size.
Proof.
  intros Hm. apply build_transformer_inv in Hm as (Henc & Hdec & Hse & Hte & _ & _).
  apply InputEmbedding_init_inv in Hse as (Hsd & _ & Hsl).
  apply InputEmbedding_init_inv in Hte as (Htd & _ & Htl).
  split; [apply Forall2_length in Henc; rewrite length_seq in Henc; lia |].
  split; [apply Forall2_length in Hdec; rewrite length_seq in Hdec; lia |].
  split.
  { clear - Henc. induction Henc as [| i blk idx blks Hblk _ IH]; constructor; [| exact IH].
    now apply build_encoder_block_inv in Hblk as (_ & _ & Hcfg & _). }
  split.
  { clear - Hdec. induction Hdec as [| i blk idx blks Hblk _ IH]; constructor; [| exact IH].
    apply build_decoder_block_inv in Hblk as (Hs & Hc & _). now split. }
  tauto.
Qed.

Lemma Fixture_build :
  exists m, build_transformer Fixture.rng 10 10 4 4 1 2 8 16 (1 / 10) = Ok m.
Proof.
  apply build_transformer_returns; try lia; try lra; try reflexivity.
  right. split; [lia | reflexivity].
Qed.

Lemma build_transformer_structure_witness :
  exists m : modules,
    length (Encoder.layers (encoder m)) = Z.to_nat 1 /\
    length (decoder_layers m) = Z.to_nat 1 /\
    Forall (fun l => attention_configured 8 2 (EncoderBlock.self_attention_block l))
      (Encoder.layers (encoder m)) /\
    Forall (fun l => attention_configured 8 2 (DecoderBlock.self_attention_block l) /\
                     attention_configured 8 2 (DecoderBlock.cross_attention_block l))
      (decoder_layers m) /\
    InputEmbedding.d_model (src_embed m) = 8%Z /\
    InputEmbedding.d_model (tgt_embed m) = 8%Z /\
    length (InputEmbedding.embedding (src_embed m)) = Z.to_nat 10 /\
    length (InputEmbedding.embedding (tgt_embed m)) = Z.to_nat 10.
Proof.
  destruct Fixture_build as [m Hm]. exists m.
  apply (build_transformer_structure Fixture.rng 10 10 4 4 1 2 8 16 (1 / 10) m Hm).
Defined.

(** X16. For positive vocabulary sizes and [d_ff], sequence lengths of at
    least 0, a positive even [d_model] and a dropout probability in
    [0, 1], [build_transformer] returns exactly when
    [N <= 0] or [h] is non-zero and divides [d_model]: with no layer the
    head count is never checked. *)
Theorem build_transformer_returns_iff (rng : initializer)
    (src_vocab_size tgt_vocab_size src_seq_len tgt_seq_len N h d_model d_ff : Z) (p : R) :
  (0 < src_vocab_size)%Z -> (0 < tgt_vocab_size)%Z ->
  (0 <= src_seq_len)%Z -> (0 <= tgt_seq_len)%Z ->
  (0 < d_model)%Z -> (d_model mod 2 = 0)%Z -> (0 < d_ff)%Z -> (0 <= p <= 1)%R ->
  (exists m, build_transformer rng src_vocab_size tgt_vocab_size src_seq_len tgt_seq_len
               N h d_model d_ff p = Ok m) <->
  ((N <= 0)%Z \/ (h <> 0%Z /\ (d_model mod h = 0)%Z)).
Proof.
  intros Hsv Htv Hss Hts Hd Heven Hf Hp. split.
  - intros [m Hm]. destruct (Z_le_gt_dec N 0) as [HN | HN]; [now left | right].
    apply build_transformer_inv in Hm as (Henc & _).
    destruct (Z.to_nat N) as [| n] eqn:En; [lia |].
    cbn [seq] in Henc. inversion Henc as [| i blk idx blks Hblk _]; subst.
    now apply build_encoder_block_inv in Hblk as (Hh & Hmod & _).
  - apply build_transformer_returns; (lia || assumption).
Qed.

Lemma build_transformer_returns_iff_witness :
  (exists m, build_transformer Fixture.rng 10 10 4 4 0 3 8 16 (1 / 10) = Ok m) <->
  ((0 <= 0)%Z \/ (3%Z <> 0%Z /\ (8 mod 3 = 0)%Z)).
Proof.
  apply (build_transformer_returns_iff Fixture.rng 10 10 4 4 0 3 8 16 (1 / 10));
    try lia; try lra; reflexivity.
Defined.

(** X17. [get_model] passes [config['d_model']] where [build_transformer]
    takes the number of layers: for positive vocabulary sizes and a
    sequence length of at least 0 it returns a model with [config['d_model']]
    encoder and decoder blocks whose width is the default 512, with 8
    heads of width 64, whatever [config['d_model']] is. *)
Theorem get_model_layers (rng : initializer) (cfg : config) (vocab_src_len vocab_tgt_len : Z) :
  (0 < vocab_src_len)%Z -> (0 < vocab_tgt_len)%Z -> (0 <= config_seq_len cfg)%Z ->
  exists m : modules,
    get_model rng cfg vocab_src_len vocab_tgt_len = Ok m /\
    length (Encoder.layers (encoder m)) = Z.to_nat (config_d_model cfg) /\
    length (decoder_layers m) = Z.to_nat (config_d_model cfg) /\
    InputEmbedding.d_model (src_embed m) = 512%Z /\
    InputEmbedding.d_model (tgt_embed m) = 512%Z /\
    Forall (fun l => attention_configured 512 8 (EncoderBlock.self_attention_block l) /\
                     MultiHeadAttentionBlock.d_k (EncoderBlock.self_attention_block l) = 64%Z)
      (Encoder.layers (encoder m)).
Proof.
  intros Hs Ht Hl. unfold get_model.
  destruct (build_transformer_returns rng vocab_src_len vocab_tgt_len
              (config_seq_len cfg) (config_seq_len cfg) (config_d_model cfg)
              8 512 2048 (1 / 10)) as [m Hm]; try lia; try lra; try reflexivity.
  { right. split; [lia | reflexivity]. }
  exists m. split; [exact Hm |].
  apply build_transformer_inv in Hm as (Henc & Hdec & Hse & Hte & _ & _).
  apply InputEmbedding_init_inv in Hse as (Hsd & _ & _).
  apply InputEmbedding_init_inv in Hte as (Htd & _ & _).
  split; [apply Forall2_length in Henc; rewrite length_seq in Henc; lia |].
  split; [apply Forall2_length in Hdec; rewrite length_seq in Hdec; lia |].
  split; [exact Hsd |]. split; [exact Htd |].
  clear - Henc. induction Henc as [| i blk idx blks Hblk _ IH]; constructor; [| exact IH].
  apply build_encoder_block_inv in Hblk as (_ & _ & Hcfg & _).
  split; [exact Hcfg |]. destruct Hcfg as (_ & _ & ->). reflexivity.
Qed.

Lemma get_model_layers_witness :
  exists m : modules,
    get_model Fixture.rng {| config_seq_len := 350; config_d_model := 7 |} 100 100 = Ok m /\
    length (Encoder.layers (encoder m)) = Z.to_nat 7 /\
    length (decoder_layers m) = Z.to_nat 7 /\
    InputEmbedding.d_model (src_embed m) = 512%Z /\
    InputEmbedding.d_model (tgt_embed m) = 512%Z /\
    Forall (fun l => attention_configured 512 8 (EncoderBlock.self_attention_block l) /\
                     MultiHeadAttentionBlock.d_k (EncoderBlock.self_attention_block l) = 64%Z)
      (Encoder.layers (encoder m)).
Proof.
  apply (get_model_layers Fixture.rng {| config_seq_len := 350; config_d_model := 7 |} 100 100).
  - lia.
  - lia.
  - cbn. lia.
Defined.

(** X18. The encoder of a model that [build_transformer] returns raises
    [AttributeError] for [bias] on every input, for every [N]. *)
Theorem built_encoder_forward_raises (rng : initializer)
    (src_vocab_size tgt_vocab_size src_seq_len tgt_seq_len N h d_model d_ff : Z)
    (p : R) (m : modules) (d : nat -> EncoderBlock.draws) (x : tensor3)
    (mask : option mask4) :
  build_transformer rng src_vocab_size tgt_vocab_size src_seq_len tgt_seq_len
    N h d_model d_ff p = Ok m ->
  Encoder.forward (encoder m) d x mask = Raise (AttributeError "bias").
Proof.
  intros Hm. pose proof Hm as Hinv.
  apply build_transformer_inv in Hinv as (Henc & _).
  unfold build_transformer in Hm. inv_bind Hm. injection Hm as <-.
  cbn [encoder] in *. unfold Encoder.forward, Encoder.init in *.
  cbn [Encoder.layers Encoder.norm] in *.
  destruct Henc as [| i blk idx blks Hblk _]; cbn [Encoder.run_layers].
  - cbn [mbind result_bind]. rewrite LayerNormalization_forward_init. reflexivity.
  - apply build_encoder_block_inv in Hblk as (_ & _ & _ & a' & f' & Hinit).
    rewrite (EncoderBlock_forward_raises a' f' p blk _ _ _ Hinit). reflexivity.
Qed.

Lemma built_encoder_forward_raises_witness :
  exists m : modules,
    Encoder.forward (encoder m) (fun _ => Fixture.block_draws) Sample.x1 None
    = Raise (AttributeError "bias").
Proof.
  destruct Fixture_build as [m Hm]. exists m.
  apply (built_encoder_forward_raises Fixture.rng 10 10 4 4 1 2 8 16 (1 / 10) m _ _ _ Hm).
Defined.

(** ** More on the greedy decoding loop *)

Section GreedyLoopRuns.

Context {St : Type}.
Variable causal_mask : nat -> result mask4.
Variable model : Model St.
Variable source_mask : mask4.
Variable max_len : Z.
Variables (eos_idx : Z) (encoder_output : tensor3).

Let loop := greedy_loop causal_mask model source_mask max_len eos_idx encoder_output.
Let body := next_token causal_mask model source_mask encoder_output.

(** A returned sequence extends the sequence the loop was entered with,
    and every element beyond it is the token predicted on the elements
    before it. *)
Lemma greedy_loop_predictions (fuel : nat) :
  forall (decoder_input seq : list Z) (s s' : St),
    loop fuel decoder_input s = Ok (Some seq, s') ->
    (exists ws, seq = decoder_input ++ ws) /\
    (forall i w, (length decoder_input <= i)%nat -> seq !! i = Some w ->
       exists s1 s2, body (take i seq) s1 = Ok (w, s2)).
Proof.
  induction fuel as [| fuel IH]; intros di seq s s' Hrun; [discriminate Hrun |].
  subst loop body. rewrite greedy_loop_S in Hrun.
  destruct (decide (Z.of_nat (length di) = max_len)).
  - injection Hrun as <- <-. split; [exists []; now rewrite app_nil_r |].
    intros i w Hi Hw. apply lookup_lt_Some in Hw. lia.
  - destruct (next_token causal_mask model source_mask encoder_output di s)
      as [[ni s1] | e] eqn:Hbody; [| discriminate Hrun].
    destruct (decide (ni = eos_idx)) as [-> | Hni].
    + injection Hrun as <- <-. split; [eexists; reflexivity |].
      intros i w Hi Hw.
      assert (i = length di) as ->.
      { apply lookup_lt_Some in Hw. rewrite length_app in Hw. simpl in Hw. lia. }
      rewrite lookup_app_r, Nat.sub_diag in Hw by lia. injection Hw as <-.
      rewrite take_app_length. eauto.
    + destruct (IH (di ++ [ni]) seq s1 s' Hrun) as [[ws ->] Hpred].
      split; [exists (ni :: ws); now rewrite <- app_assoc |].
      intros i w Hi Hw.
      destruct (decide (i = length di)) as [-> | Hne].
      * rewrite <- app_assoc in Hw. rewrite lookup_app_r, Nat.sub_diag in Hw by lia.
        injection Hw as <-. rewrite <- app_assoc, take_app_length. eauto.
      * apply Hpred; [rewrite length_app; simpl; lia | exact Hw].
Qed.

(** A returned sequence is the one the loop was entered with only when
    that one already has [max_len] elements; otherwise it is longer. *)
Lemma greedy_loop_grows (fuel : nat) :
  forall (decoder_input seq : list Z) (s s' : St),
    loop fuel decoder_input s = Ok (Some seq, s') ->
    (seq = decoder_input /\ Z.of_nat (length decoder_input) = max_len /\ s' = s) \/
    (length decoder_input < length seq)%nat.
Proof.
  induction fuel as [| fuel IH]; intros di seq s s' Hrun; [discriminate Hrun |].
  subst loop body. rewrite greedy_loop_S in Hrun.
  destruct (decide (Z.of_nat (length di) = max_len)).
  - injection Hrun as <- <-. now left.
  - destruct (next_token causal_mask model source_mask encoder_output di s)
      as [[ni s1] | e]; [| discriminate Hrun].
    right. destruct (decide (ni = eos_idx)).
    + injection Hrun as <- <-. rewrite length_app. simpl. lia.
    + destruct (IH _ _ _ _ Hrun) as [(-> & _ & _) | Hlt];
        [| rewrite length_app in Hlt; simpl in Hlt]; try lia.
      rewrite length_app. simpl. lia.
Qed.

(** Entered with more than [max_len] elements, and with a model that
    never predicts the end-of-sequence id and never raises, the loop is
    still running after any number of passes. *)
Lemma greedy_loop_runs_on (fuel : nat) :
  (forall di s, exists w s', body di s = Ok (w, s') /\ w <> eos_idx) ->
  forall (decoder_input : list Z) (s : St),
    (max_len < Z.of_nat (length decoder_input))%Z ->
    out_of_fuel (loop fuel decoder_input s).
Proof.
  intros Hbody. induction fuel as [| fuel IH]; intros di s Hlen.
  - exists s. reflexivity.
  - subst loop body. rewrite greedy_loop_S.
    destruct (decide (Z.of_nat (length di) = max_len)); [lia |].
    destruct (Hbody di s) as (w & s1 & -> & Hw).
    destruct (decide (w = eos_idx)); [contradiction |].
    apply IH. rewrite length_app. simpl. lia.
Qed.

End GreedyLoopRuns.



(** X20. For every [max_len] other than 1, a returned sequence has at
    least two elements: the start-of-sequence id and one generated
    token. *)
Theorem greedy_decode_at_least_two {St : Type} (causal_mask : nat -> result mask4)
    (model : Model St) (source : list (list Z)) (source_mask : mask4)
    (tokenizer_tgt : Tokenizer) (max_len : Z) (fuel : nat) (s s' : St) (seq : list Z) :
  max_len <> 1%Z ->
  greedy_decode causal_mask model source source_mask tokenizer_tgt max_len fuel s
    = Ok (Some seq, s') ->
  (2 <= length seq)%nat.
Proof.
  intros Hmax. unfold greedy_decode, mbind, M_bind, lift.
  destruct (token_to_ids tokenizer_tgt "[SOS]") as [sos | e]; [| discriminate].
  destruct (token_to_ids tokenizer_tgt "[EOS]") as [eos | e]; [| discriminate].
  destruct (encode model source source_mask s) as [[eo s1] | e]; [| discriminate].
  intros Hrun. apply greedy_loop_grows in Hrun as [(_ & Hlen & _) | Hlt]; simpl in *; lia.
Qed.

Lemma greedy_decode_at_least_two_witness : (2 <= length [3%Z; 0%Z; 0%Z])%nat.
Proof.
  apply (greedy_decode_at_least_two Sample.causal_mask Sample.model [[5%Z]] [[[[1%Z]]]]
           Sample.tokenizer 3 3 tt tt [3%Z; 0%Z; 0%Z]).
  - lia.
  - reflexivity.
Defined.

(** X21. For [max_len < 1] the length test of the loop never succeeds:
    with a model that never raises and never predicts the end-of-sequence
    id, the decoder is still running after any number of passes. *)
Theorem greedy_decode_runs_on {St : Type} (causal_mask : nat -> result mask4)
    (model : Model St) (source : list (list Z)) (source_mask : mask4)
    (tokenizer_tgt : Tokenizer) (max_len : Z) (fuel : nat) (s s1 : St)
    (sos_idx eos_idx : Z) (encoder_output : tensor3) :
  (max_len < 1)%Z ->
  token_to_ids tokenizer_tgt "[SOS]" = Ok sos_idx ->
  token_to_ids tokenizer_tgt "[EOS]" = Ok eos_idx ->
  encode model source source_mask s = Ok (encoder_output, s1) ->
  (forall di s, exists w s',
     next_token causal_mask model source_mask encoder_output di s = Ok (w, s') /\
     w <> eos_idx) ->
  out_of_fuel (greedy_decode causal_mask model source source_mask tokenizer_tgt
                 max_len fuel s).
Proof.
  intros Hmax Hsos Heos Henc Hbody. unfold greedy_decode, mbind, M_bind, lift.
  rewrite Hsos, Heos, Henc.
  apply greedy_loop_runs_on; [exact Hbody | simpl; lia].
Qed.

Lemma greedy_decode_runs_on_witness :
  out_of_fuel (greedy_decode Sample.causal_mask Sample.model [[5%Z]] [[[[1%Z]]]]
                 Sample.tokenizer 0 1000 tt).
Proof.
  apply (greedy_decode_runs_on Sample.causal_mask Sample.model [[5%Z]] [[[[1%Z]]]]
           Sample.tokenizer 0 1000 tt tt 3 2 [[[0%R]]]).
  - lia.
  - reflexivity.
  - reflexivity.
  - reflexivity.
  - intros di s. exists 0%Z, s. split; [reflexivity | lia].
Defined.

(** X22. Every element of a returned sequence after the first is the
    token the model predicted on the elements before it: the argmax of the
    projected last position of [decode] on that prefix. *)
Theorem greedy_decode_predictions {St : Type} (causal_mask : nat -> result mask4)
    (model : Model St) (source : list (list Z)) (source_mask : mask4)
    (tokenizer_tgt : Tokenizer) (max_len : Z) (fuel : nat) (s s' : St) (seq : list Z) :
  greedy_decode causal_mask model source source_mask tokenizer_tgt max_len fuel s
    = Ok (Some seq, s') ->
  exists (encoder_output : tensor3) (s0 : St),
    encode model source source_mask s = Ok (encoder_output, s0) /\
    forall i w, (1 <= i)%nat -> seq !! i = Some w ->
      exists s1 s2,
        next_token causal_mask model source_mask encoder_output (take i seq) s1
        = Ok (w, s2).
Proof.
  unfold greedy_decode, mbind, M_bind, lift.
  destruct (token_to_ids tokenizer_tgt "[SOS]") as [sos | e]; [| discriminate].
  destruct (token_to_ids tokenizer_tgt "[EOS]") as [eos | e]; [| discriminate].
  destruct (encode model source source_mask s) as [[eo s0] | e]; [| discriminate].
  intros Hrun. exists eo, s0. split; [reflexivity |].
  apply greedy_loop_predictions in Hrun as [_ Hpred]. exact Hpred.
Qed.

Lemma greedy_decode_predictions_witness :
  exists (encoder_output : tensor3) (s0 : unit),
    encode Sample.model [[5%Z]] [[[[1%Z]]]] tt = Ok (encoder_output, s0) /\
    forall i w, (1 <= i)%nat -> [3%Z; 0%Z; 0%Z] !! i = Some w ->
      exists s1 s2,
        next_token Sample.causal_mask Sample.model [[[[1%Z]]]] encoder_output
          (take i [3%Z; 0%Z; 0%Z]) s1
        = Ok (w, s2).
Proof.
  apply (greedy_decode_predictions Sample.causal_mask Sample.model [[5%Z]] [[[[1%Z]]]]
           Sample.tokenizer 3 3 tt tt [3%Z; 0%Z; 0%Z]).
  reflexivity.
Defined.

(** X23. Greedy decoding over a transformer assembled from the
    repository's modules raises for every source, tokenizer, [max_len] and
    budget: when the tokenizer answers, [model.encode] fails in the
    positional encoding of the source. *)
Theorem greedy_decode_transformer_raises (causal_mask : nat -> result mask4)
    (m : modules) (d : model_draws) (source : list (list Z)) (source_mask : mask4)
    (tokenizer_tgt : Tokenizer) (max_len : Z) (fuel : nat) :
  raises (greedy_decode causal_mask (as_model (as_transformer m d)) source source_mask
            tokenizer_tgt max_len fuel tt).
Proof.
  unfold greedy_decode, mbind, M_bind, lift.
  destruct (token_to_ids tokenizer_tgt "[SOS]") as [sos | e]; [| eexists; reflexivity].
  destruct (token_to_ids tokenizer_tgt "[EOS]") as [eos | e]; [| eexists; reflexivity].
  cbn [encode as_model].
  destruct (Transformer_encode_stops (as_transformer m d)
              [PyIds source; PyMask source_mask]) as [e ->];
    [intros t; apply PositionalEncoding_call_raises |].
  eexists. reflexivity.
Qed.

(** ** The feed-forward block *)

(** X24. In inference mode the feed-forward block acts on every token by
    itself: the output at batch [b] and position [i] is the second linear
    layer applied to the rectified first linear layer of the input token
    at [(b, i)], and depends on no other token. *)
Theorem feed_forward_tokenwise (self : FeedForwardBlock.t)
    (keep : nat -> nat -> nat -> bool) (x y : tensor3) (b i : nat) (xb : mat) (tok : vec) :
  Dropout.training (FeedForwardBlock.dropout self) = false ->
  FeedForwardBlock.forward self keep x = Ok y ->
  x !! b = Some xb -> xb !! i = Some tok ->
  Linear.accepts (FeedForwardBlock.linear_1 self) tok /\
  Linear.accepts (FeedForwardBlock.linear_2 self)
    (Rmax 0 <$> Linear.apply (FeedForwardBlock.linear_1 self) tok) /\
  exists yb : mat,
    y !! b = Some yb /\
    yb !! i = Some (Linear.apply (FeedForwardBlock.linear_2 self)
                      (Rmax 0 <$> Linear.apply (FeedForwardBlock.linear_1 self) tok)).
Proof.
  intros Htrain Hrun Hb Hi.
  unfold FeedForwardBlock.forward, Dropout.forward3 in Hrun. rewrite Htrain in Hrun.
  apply result_bind_ok in Hrun as (hidden & Hhidden & Hrun).
  apply Linear_forward_ok in Hhidden as [Hacc1 ->].
  apply Linear_forward_ok in Hrun as [Hacc2 ->].
  unfold FeedForwardBlock.relu in Hacc2 |- *.
  split; [| split].
  - rewrite Forall_lookup in Hacc1. specialize (Hacc1 b xb Hb).
    rewrite Forall_lookup in Hacc1. exact (Hacc1 i tok Hi).
  - rewrite Forall_lookup in Hacc2.
    specialize (Hacc2 b ((fun t : vec => Rmax 0 <$> t) <$>
                           (Linear.apply (FeedForwardBlock.linear_1 self) <$> xb))).
    rewrite !list_lookup_fmap, Hb in Hacc2. specialize (Hacc2 eq_refl).
    rewrite Forall_lookup in Hacc2. apply (Hacc2 i).
    rewrite !list_lookup_fmap, Hi. reflexivity.
  - eexists. rewrite !list_lookup_fmap, Hb. cbn. split; [reflexivity |].
    rewrite !list_lookup_fmap, Hi. reflexivity.
Qed.

Lemma feed_forward_tokenwise_witness :
  Linear.accepts (FeedForwardBlock.linear_1 Fixture.feed_forward) [1%R] /\
  Linear.accepts (FeedForwardBlock.linear_2 Fixture.feed_forward)
    (Rmax 0 <$> Linear.apply (FeedForwardBlock.linear_1 Fixture.feed_forward) [1%R]) /\
  exists yb : mat,
    Fixture.feed_forward_x1 !! 0%nat = Some yb /\
    yb !! 0%nat = Some (Linear.apply (FeedForwardBlock.linear_2 Fixture.feed_forward)
                          (Rmax 0 <$> Linear.apply (FeedForwardBlock.linear_1 Fixture.feed_forward)
                                        [1%R])).
Proof.
  apply (feed_forward_tokenwise Fixture.feed_forward Fixture.no_draws3 Sample.x1
           Fixture.feed_forward_x1 0 0 [[1%R]] [1%R]).
  - reflexivity.
  - unfold FeedForwardBlock.forward, Linear.forward. pass_checks. cbn. pass_checks.
    reflexivity.
  - reflexivity.
  - reflexivity.
Defined.

(** ** The decoder stack *)

Lemma LayerNormalization_call_raises (eps : R) (x : pyval) :
  raises (LayerNormalization.call (LayerNormalization.init eps) x).
Proof.
  destruct x; eexists; reflexivity.
Qed.

(** X25. A decoder stack whose final normalization was built by the
    constructor raises on every input, whatever its layers are and
    however many there are: either a layer raises or the final
    normalization does. *)
Theorem decoder_forward_raises (layers : list Decoder.layer) (eps : R)
    (x encoder_output src_mask tgt_mask : pyval) :
  raises (Decoder.forward
            {| Decoder.layers := layers; Decoder.norm := LayerNormalization.init eps |}
            x encoder_output src_mask tgt_mask).
Proof.
  unfold Decoder.forward. cbn [Decoder.layers Decoder.norm].
  destruct (Decoder.run_layers layers x encoder_output src_mask tgt_mask) as [y | e].
  - cbn [mbind result_bind]. apply LayerNormalization_call_raises.
  - eexists. reflexivity.
Qed.

(** ** Attention blocks with a negative head count *)

(** X26. The constructor of an attention block accepts a negative [h]
    that divides [d_model]: it returns a block whose [d_k] is negative. *)
Theorem attention_block_init_negative_heads (d_model h : Z) (p : R)
    (w : MultiHeadAttentionBlock.init_weights) :
  (0 < d_model)%Z -> (h < 0)%Z -> (d_model mod h = 0)%Z -> (0 <= p <= 1)%R ->
  exists blk,
    MultiHeadAttentionBlock.init d_model h p w = Ok blk /\
    (MultiHeadAttentionBlock.d_k blk < 0)%Z.
Proof.
  intros Hd Hh Hm Hp.
  destruct (MultiHeadAttentionBlock_init_returns d_model h p w) as [blk Hblk];
    [lia | exact Hp | lia | exact Hm |].
  exists blk. split; [exact Hblk |].
  apply MultiHeadAttentionBlock_init_inv in Hblk as (_ & _ & _ & _ & ->).
  pose proof (Z.div_mod d_model h ltac:(lia)) as Hdm. rewrite Hm in Hdm. nia.
Qed.

Lemma attention_block_init_negative_heads_witness :
  exists blk,
    MultiHeadAttentionBlock.init 512 (-8) (1 / 10) Sample.weights0 = Ok blk /\
    (MultiHeadAttentionBlock.d_k blk < 0)%Z.
Proof.
  apply (attention_block_init_negative_heads 512 (-8) (1 / 10) Sample.weights0).
  - lia.
  - lia.
  - reflexivity.
  - lra.
Defined.
